(** * Task Management API (app/main.py): a shallow embedding and its properties

    The FastAPI application of [app/main.py] is embedded as follows.

    - The pydantic models [TaskBase], [TaskCreate] and [Task] are records.
    - The MySQL server is a record [Database] holding the [tasks] table as a
      finite map from the primary key to the other columns, the
      auto-increment counter and the server clock.
    - Every handler is a computation in a state-and-exception monad [M]
      whose state holds the server, the connection's transaction view, the
      Python local variable [cursor] and a trace of the driver calls made.
      Python's [try]/[except Error]/[finally] is the combinator [try_].
    - [serve] is the framework layer: request-body validation, the handler,
      and the mapping of the handler's outcome to an HTTP response. *)

From Stdlib Require Import Ascii.
From stdpp Require Import gmap strings list fin_maps.

Local Open Scope string_scope.
Local Open Scope Z_scope.

(** ** The pydantic models *)

(** [class TaskBase(BaseModel)]: [title: str], [description: Optional[str]
    = None], [completed: Optional[bool] = False]. *)
Record TaskBase := {
  title : string;
  description : option string;
  completed : option bool
}.

(** [class TaskCreate(TaskBase): pass] *)
Definition TaskCreate := TaskBase.

(** [class Task(TaskBase)]: adds [id: int], [created_at: datetime],
    [updated_at: datetime]. A datetime is a number of seconds. *)
Record Task := {
  base :> TaskBase;
  id : Z;
  created_at : Z;
  updated_at : Z
}.

#[global] Instance TaskBase_eq_dec : EqDecision TaskBase.
Proof. solve_decision. Defined.

(** ** Request bodies

    A field of a JSON object is absent, [null], or carries a value of the
    JSON type the model expects. Bodies in which a present field has another
    JSON type are outside the model. *)
Inductive field (A : Type) :=
| Absent
| Null
| Value (a : A).
Arguments Absent {A}.
Arguments Null {A}.
Arguments Value {A} a.

Record RawBody := {
  raw_title : field string;
  raw_description : field string;
  raw_completed : field bool
}.

(** Validation of a body against [TaskCreate], as pydantic does it: [title]
    is required and is a [str] (so neither absent nor [null]); the two
    optional fields take their defaults when absent and [None] when [null].
    [None] is the validation error. *)
Definition validate (b : RawBody) : option TaskCreate :=
  match raw_title b with
  | Value t =>
      Some {| title := t;
              description := match raw_description b with
                             | Value d => Some d
                             | Absent | Null => None
                             end;
              completed := match raw_completed b with
                           | Value c => Some c
                           | Null => None
                           | Absent => Some false
                           end |}
  | Absent | Null => None
  end.

(** ** The database *)

(** The columns of a row of [tasks] other than the primary key. *)
Record Row := {
  cols : TaskBase;
  row_created_at : Z;
  row_updated_at : Z
}.

(** Modelled from the spec: the schema and the connection settings are set in
    [app/database/connection.py], which is not part of the sources. The table
    is [tasks(id PK auto-increment, title NOT NULL, description NULLABLE,
    completed BOOL default false, created_at, updated_at)], both timestamps
    assigned by the server. [on_update_refresh] says whether [updated_at] is
    declared [ON UPDATE CURRENT_TIMESTAMP]; [found_rows] says whether the
    connection sets the client flag under which the affected-rows count of an
    [UPDATE] counts the rows matched rather than the rows changed. *)
Record Settings := {
  found_rows : bool;
  on_update_refresh : bool
}.

(** Modelled from the spec: [connect()] is given host, user, password,
    database name and port only, so the driver's default client flags apply
    and the affected-rows count of an [UPDATE] is the number of rows whose
    content changed. *)
Definition default_flags (refresh : bool) : Settings :=
  {| found_rows := false; on_update_refresh := refresh |}.

Record Database := {
  tasks : gmap Z Row;
  next_id : Z;
  now : Z
}.

(** Modelled from the spec: [init_db()] creates the [tasks] table if it is
    missing; on a new server it leaves an empty table whose first id is 1. *)
Definition init_db (t0 : Z) : Database :=
  {| tasks := ∅; next_id := 1; now := t0 |}.

(** The row as a [dictionary=True] cursor returns it. *)
Definition row_to_dict (i : Z) (r : Row) : Task :=
  {| base := cols r; id := i;
     created_at := row_created_at r; updated_at := row_updated_at r |}.

(** The SQL statements of the handlers, with their parameters bound. *)
Inductive Statement :=
| InsertTask (t : TaskBase)
| SelectAll
| SelectById (i : option Z)
| UpdateTask (t : TaskBase) (i : Z)
| DeleteById (i : Z).

(** ** The driver *)

(** A cursor: the counters of the last statement and the rows not yet
    fetched. *)
Record Cursor := {
  rowcount : Z;
  lastrowid : option Z;
  unread : list Task
}.

Inductive Call :=
| CConnect
| CCursor
| CExecute (q : Statement)
| CCommit
| CFetchone
| CFetchall
| CCursorClose
| CConnClose.

(** A driver call and the message of the error it ended in, if any. *)
Definition Event : Type := Call * option string.

(** What the environment does to one request: how much time has passed since
    the previous one, the error that keeps a connection from being opened
    (if any), and which of the driver calls made inside the [try] block
    (counted from 0) raise [mysql.connector.Error], with which message. *)
Record Env := {
  elapsed : nat;
  connect_error : option string;
  faults : nat → option string
}.

Record State := {
  db : Database;
  txn : gmap Z Row;
  conn_open : bool;
  cursor : option Cursor;
  calls : nat;
  trace : list Event
}.

Inductive Exn :=
| DriverError (msg : string)
| HTTPException (status_code : Z) (detail : string)
| UnboundLocalError (var : string).

Inductive Result (A : Type) :=
| Return (a : A)
| Raise (e : Exn).
Arguments Return {A} a.
Arguments Raise {A} e.

Definition M (A : Type) : Type := State → Result A * State.

Definition ret {A} (a : A) : M A := λ s, (Return a, s).

Definition raise {A} (e : Exn) : M A := λ s, (Raise e, s).

Definition bind {A B} (m : M A) (k : A → M B) : M B := λ s,
  match m s with
  | (Return a, s1) => k a s1
  | (Raise e, s1) => (Raise e, s1)
  end.

Declare Scope py_scope.
Delimit Scope py_scope with py.
Notation "x <- m ;; k" := (bind m (λ x, k))
  (at level 100, m at next level, right associativity) : py_scope.
Notation "m ;;; k" := (bind m (λ _, k))
  (at level 100, right associativity) : py_scope.

(** [try: body / except Error as e: handler e / finally: final]. Only a
    driver error is caught; an exception raised by [final] replaces the
    outcome of the rest. *)
Definition try_ {A} (body : M A) (except_Error : string → M A)
    (final : M unit) : M A := λ s,
  let '(r, s1) := body s in
  let '(r', s2) := match r with
                   | Raise (DriverError msg) => except_Error msg s1
                   | _ => (r, s1)
                   end in
  match final s2 with
  | (Return _, s3) => (r', s3)
  | (Raise e, s3) => (Raise e, s3)
  end.

(** *** State updates *)

Definition log (ev : Event) (s : State) : State :=
  {| db := db s; txn := txn s; conn_open := conn_open s; cursor := cursor s;
     calls := calls s; trace := trace s ++ [ev] |}.

Definition count_call (s : State) : State :=
  {| db := db s; txn := txn s; conn_open := conn_open s; cursor := cursor s;
     calls := S (calls s); trace := trace s |}.

Definition set_cursor (c : option Cursor) (s : State) : State :=
  {| db := db s; txn := txn s; conn_open := conn_open s; cursor := c;
     calls := calls s; trace := trace s |}.

Definition set_txn (t : gmap Z Row) (s : State) : State :=
  {| db := db s; txn := t; conn_open := conn_open s; cursor := cursor s;
     calls := calls s; trace := trace s |}.

Definition set_db (d : Database) (s : State) : State :=
  {| db := d; txn := txn s; conn_open := conn_open s; cursor := cursor s;
     calls := calls s; trace := trace s |}.

Definition set_open (b : bool) (s : State) : State :=
  {| db := db s; txn := txn s; conn_open := b; cursor := cursor s;
     calls := calls s; trace := trace s |}.

(** *** The statements *)

Section Application.
Context (cfg : Settings) (env : Env).

(** The row an [UPDATE] leaves: the three columns replaced, [created_at]
    kept, [updated_at] refreshed if the schema says so. *)
Definition updated_row (t : TaskBase) (r : Row) (time : Z) : Row :=
  {| cols := t;
     row_created_at := row_created_at r;
     row_updated_at := if on_update_refresh cfg then time
                       else row_updated_at r |}.

(** The effect of a statement on the connection's view and on the cursor.
    The auto-increment counter is advanced on the server at once. *)
Definition run_statement (q : Statement) (s : State) : State :=
  match q with
  | InsertTask t =>
      let i := next_id (db s) in
      let r := {| cols := t; row_created_at := now (db s);
                  row_updated_at := now (db s) |} in
      set_cursor (Some {| rowcount := 1; lastrowid := Some i; unread := [] |})
        (set_txn (<[i := r]> (txn s))
           (set_db {| tasks := tasks (db s); next_id := i + 1;
                      now := now (db s) |} s))
  | SelectAll =>
      set_cursor
        (Some {| rowcount := -1; lastrowid := None;
                 unread := (λ p, row_to_dict p.1 p.2) <$> map_to_list (txn s) |})
        s
  | SelectById oi =>
      set_cursor
        (Some {| rowcount := -1; lastrowid := None;
                 unread := match oi ≫= λ i, row_to_dict i <$> txn s !! i with
                           | Some t => [t]
                           | None => []
                           end |})
        s
  | UpdateTask t i =>
      match txn s !! i with
      | None =>
          set_cursor (Some {| rowcount := 0; lastrowid := None; unread := [] |}) s
      | Some r =>
          if bool_decide (cols r = t) then
            set_cursor
              (Some {| rowcount := if found_rows cfg then 1 else 0;
                       lastrowid := None; unread := [] |}) s
          else
            set_cursor
              (Some {| rowcount := 1; lastrowid := None; unread := [] |})
              (set_txn (<[i := updated_row t r (now (db s))]> (txn s)) s)
      end
  | DeleteById i =>
      match txn s !! i with
      | None =>
          set_cursor (Some {| rowcount := 0; lastrowid := None; unread := [] |}) s
      | Some _ =>
          set_cursor
            (Some {| rowcount := 1; lastrowid := None; unread := [] |})
            (set_txn (delete i (txn s)) s)
      end
  end.

(** *** The driver calls *)

(** A call that may raise [mysql.connector.Error]: it raises when the
    environment says so, and has its effect otherwise. *)
Definition fallible {A} (c : Call) (effect : State → A * State) : M A := λ s,
  let s1 := count_call s in
  match faults env (calls s) with
  | Some msg => (Raise (DriverError msg), log (c, Some msg) s1)
  | None => let '(a, s2) := effect s1 in (Return a, log (c, None) s2)
  end.

(** Modelled from the spec: [get_db_connection()] of
    [app/database/connection.py] returns an open connection, or a false
    value when the server cannot be reached. A new connection sees the
    committed table. *)
Definition get_db_connection : M bool := λ s,
  match connect_error env with
  | None =>
      (Return true, log (CConnect, None) (set_open true (set_txn (tasks (db s)) s)))
  | Some msg => (Return false, log (CConnect, Some msg) s)
  end.

(** [conn.cursor(...)] *)
Definition conn_cursor : M Cursor :=
  fallible CCursor
    (λ s, ({| rowcount := -1; lastrowid := None; unread := [] |}, s)).

(** [cursor = ...] *)
Definition assign_cursor (c : Cursor) : M unit :=
  λ s, (Return (), set_cursor (Some c) s).

(** A use of the local variable [cursor]. *)
Definition cursor_var : M Cursor := λ s,
  match cursor s with
  | Some c => (Return c, s)
  | None => (Raise (UnboundLocalError "cursor"), s)
  end.

(** [cursor.execute(query, values)] *)
Definition cursor_execute (q : Statement) : M unit :=
  (_ <- cursor_var ;;
   fallible (CExecute q) (λ s, ((), run_statement q s)))%py.

(** [conn.commit()] *)
Definition conn_commit : M unit :=
  fallible CCommit
    (λ s, ((), set_db {| tasks := txn s; next_id := next_id (db s);
                         now := now (db s) |} s)).

(** [cursor.fetchone()] *)
Definition cursor_fetchone : M (option Task) :=
  (c <- cursor_var ;;
   fallible CFetchone
     (λ s, match unread c with
           | [] => (None, s)
           | t :: rest =>
               (Some t,
                set_cursor (Some {| rowcount := rowcount c;
                                    lastrowid := lastrowid c;
                                    unread := rest |}) s)
           end))%py.

(** [cursor.fetchall()] *)
Definition cursor_fetchall : M (list Task) :=
  (c <- cursor_var ;;
   fallible CFetchall
     (λ s, (unread c,
            set_cursor (Some {| rowcount := rowcount c;
                                lastrowid := lastrowid c;
                                unread := [] |}) s)))%py.

(** [cursor.rowcount] *)
Definition cursor_rowcount : M Z :=
  (c <- cursor_var ;; ret (rowcount c))%py.

(** [cursor.lastrowid] *)
Definition cursor_lastrowid : M (option Z) :=
  (c <- cursor_var ;; ret (lastrowid c))%py.

(** [cursor.close()] *)
Definition cursor_close : M unit :=
  (_ <- cursor_var ;; λ s, (Return (), log (CCursorClose, None) s))%py.

(** [conn.close()]: what was not committed is rolled back. *)
Definition conn_close : M unit := λ s,
  (Return (), log (CConnClose, None) (set_open false (set_txn (tasks (db s)) s))).

(** ** The handlers *)

(** [GET /] *)
Definition read_root : M string :=
  ret "Welcome to the Task Management API. Visit /docs for the API documentation.".

(** [GET /ask]: a fixed HTML page, sent as it is. *)
Definition ask_valentine : M unit := ret ().

(** [POST /tasks/] *)
Definition create_task (task : TaskCreate) : M (option Task) :=
  (conn <- get_db_connection ;;
   if negb conn then raise (HTTPException 500 "Database connection failed")
   else
     try_
       (c <- conn_cursor ;;
        assign_cursor c ;;;
        cursor_execute (InsertTask task) ;;;
        conn_commit ;;;
        task_id <- cursor_lastrowid ;;
        cursor_execute (SelectById task_id) ;;;
        new_task <- cursor_fetchone ;;
        ret new_task)
       (λ e, raise (HTTPException 500 e))
       (cursor_close ;;; conn_close))%py.

(** [GET /tasks/] *)
Definition read_tasks : M (list Task) :=
  (conn <- get_db_connection ;;
   if negb conn then raise (HTTPException 500 "Database connection failed")
   else
     try_
       (c <- conn_cursor ;;
        assign_cursor c ;;;
        cursor_execute SelectAll ;;;
        tasks <- cursor_fetchall ;;
        ret tasks)
       (λ e, raise (HTTPException 500 e))
       (cursor_close ;;; conn_close))%py.

(** [GET /tasks/{task_id}] *)
Definition read_task (task_id : Z) : M (option Task) :=
  (conn <- get_db_connection ;;
   if negb conn then raise (HTTPException 500 "Database connection failed")
   else
     try_
       (c <- conn_cursor ;;
        assign_cursor c ;;;
        cursor_execute (SelectById (Some task_id)) ;;;
        task <- cursor_fetchone ;;
        match task with
        | None => raise (HTTPException 404 "Task not found")
        | Some _ => ret task
        end)
       (λ e, raise (HTTPException 500 e))
       (cursor_close ;;; conn_close))%py.

(** [PUT /tasks/{task_id}] *)
Definition update_task (task_id : Z) (task : TaskCreate) : M (option Task) :=
  (conn <- get_db_connection ;;
   if negb conn then raise (HTTPException 500 "Database connection failed")
   else
     try_
       (c <- conn_cursor ;;
        assign_cursor c ;;;
        cursor_execute (UpdateTask task task_id) ;;;
        conn_commit ;;;
        n <- cursor_rowcount ;;
        if n =? 0 then raise (HTTPException 404 "Task not found")
        else
          cursor_execute (SelectById (Some task_id)) ;;;
          updated_task <- cursor_fetchone ;;
          ret updated_task)
       (λ e, raise (HTTPException 500 e))
       (cursor_close ;;; conn_close))%py.

(** [DELETE /tasks/{task_id}] *)
Definition delete_task (task_id : Z) : M string :=
  (conn <- get_db_connection ;;
   if negb conn then raise (HTTPException 500 "Database connection failed")
   else
     try_
       (c <- conn_cursor ;;
        assign_cursor c ;;;
        cursor_execute (DeleteById task_id) ;;;
        conn_commit ;;;
        n <- cursor_rowcount ;;
        if n =? 0 then raise (HTTPException 404 "Task not found")
        else ret "Task deleted successfully")
       (λ e, raise (HTTPException 500 e))
       (cursor_close ;;; conn_close))%py.

End Application.

(** ** The framework layer *)

(** The requests that reach a handler: one of the seven routes, with an
    integer where the path has an id. A request that the framework answers
    by itself (an id that is not an integer, a path or a method that no
    route has) is not a [Request]. *)
Inductive Request :=
| GetRoot
| GetAsk
| PostTasks (b : RawBody)
| GetTasks
| GetTask (task_id : Z)
| PutTask (task_id : Z) (b : RawBody)
| DeleteTask (task_id : Z).

(** The body of a response: a task, a list of tasks, [{"message": m}],
    [{"detail": d}], the validation errors of a rejected body, the HTML page,
    or plain text. *)
Inductive Content :=
| JTask (t : Task)
| JTasks (ts : list Task)
| JMessage (m : string)
| JDetail (d : string)
| JValidationErrors
| Html
| Text (s : string).

Record Response := {
  status : Z;
  content : Content
}.

(** An exception other than [HTTPException] leaves the application and is
    answered by the server with a bare 500. *)
Definition internal_server_error : Response :=
  {| status := 500; content := Text "Internal Server Error" |}.

Definition respond_exn (e : Exn) : Response :=
  match e with
  | HTTPException sc d => {| status := sc; content := JDetail d |}
  | DriverError _ | UnboundLocalError _ => internal_server_error
  end.

(** [response_model=Task]: the returned value has to be a row. *)
Definition as_Task (v : option Task) : Response :=
  match v with
  | Some t => {| status := 200; content := JTask t |}
  | None => internal_server_error
  end.

(** [response_model=List[Task]] *)
Definition as_Tasks (v : list Task) : Response :=
  {| status := 200; content := JTasks v |}.

Definition as_message (m : string) : Response :=
  {| status := 200; content := JMessage m |}.

Definition as_html (_ : unit) : Response :=
  {| status := 200; content := Html |}.

Definition unprocessable : Response :=
  {| status := 422; content := JValidationErrors |}.

Definition answer {A} (ser : A → Response) (h : M A) (s : State)
    : Response * State :=
  match h s with
  | (Return a, s') => (ser a, s')
  | (Raise e, s') => (respond_exn e, s')
  end.

(** The state in which a request finds the process: time has passed on the
    server, no connection is open, [cursor] is unbound. *)
Definition start (env : Env) (d : Database) : State :=
  {| db := {| tasks := tasks d; next_id := next_id d;
              now := now d + Z.of_nat (elapsed env) |};
     txn := tasks d; conn_open := false; cursor := None;
     calls := 0; trace := [] |}.

(** One request: the route, the validation of the body, the handler. *)
Definition serve (cfg : Settings) (env : Env) (req : Request) (d : Database)
    : Response * State :=
  let s := start env d in
  match req with
  | GetRoot => answer as_message read_root s
  | GetAsk => answer as_html ask_valentine s
  | PostTasks b =>
      match validate b with
      | Some task => answer as_Task (create_task cfg env task) s
      | None => (unprocessable, s)
      end
  | GetTasks => answer as_Tasks (read_tasks cfg env) s
  | GetTask i => answer as_Task (read_task cfg env i) s
  | PutTask i b =>
      match validate b with
      | Some task => answer as_Task (update_task cfg env i task) s
      | None => (unprocessable, s)
      end
  | DeleteTask i => answer as_message (delete_task cfg env i) s
  end.

(** A sequence of requests, one after the other. *)
Fixpoint serve_all (cfg : Settings) (reqs : list (Env * Request))
    (d : Database) : list Response * Database :=
  match reqs with
  | [] => ([], d)
  | (env, req) :: rest =>
      let '(resp, s) := serve cfg env req d in
      let '(resps, d') := serve_all cfg rest (db s) in
      (resp :: resps, d')
  end.

(** An environment in which nothing goes wrong. *)
Definition calm (dt : nat) : Env :=
  {| elapsed := dt; connect_error := None; faults := λ _, None |}.

(** An environment in which the [k]-th driver call raises. *)
Definition failing_at (k : nat) (msg : string) : Env :=
  {| elapsed := 0; connect_error := None;
     faults := λ j, if (j =? k)%nat then Some msg else None |}.

Definition just_title (t : string) : RawBody :=
  {| raw_title := Value t; raw_description := Absent; raw_completed := Absent |}.

(** ** Sample data *)

(** A server on which [POST /tasks/] with [{title: "Buy milk"}] was served
    once. *)
Definition one_task (cfg : Settings) : Database :=
  (serve_all cfg [(calm 1, PostTasks (just_title "Buy milk"))] (init_db 100)).2.

Definition bread : RawBody :=
  {| raw_title := Value "Buy bread"; raw_description := Value "two loaves";
     raw_completed := Value true |}.

Definition null_flag : RawBody :=
  {| raw_title := Value "Buy milk"; raw_description := Absent;
     raw_completed := Null |}.

Definition no_title : RawBody :=
  {| raw_title := Absent; raw_description := Value "two loaves";
     raw_completed := Absent |}.

(** ** Predicates used in the statements *)

(** The server's invariant: every id in use lies below the auto-increment
    counter, and no row was updated in the future. *)
Definition wf_db (d : Database) : Prop :=
  ∀ i r, tasks d !! i = Some r → i < next_id d ∧ row_updated_at r ≤ now d.

(** No stored row has a [NULL] in [completed]. *)
Definition completed_set (d : Database) : Prop :=
  ∀ i r, tasks d !! i = Some r → is_Some (completed (cols r)).

(** The task objects a response carries. *)
Definition returned_tasks (resp : Response) : list Task :=
  match content resp with
  | JTask t => [t]
  | JTasks ts => ts
  | _ => []
  end.

(** The request has a body whose [completed] is an explicit [null]. *)
Definition null_completed (req : Request) : bool :=
  match req with
  | PostTasks b | PutTask _ b =>
      match raw_completed b with
      | Null => true
      | _ => false
      end
  | _ => false
  end.

(** The calls that send a statement to the server or read its result. *)
Definition is_statement (c : Call) : bool :=
  match c with
  | CExecute _ | CCommit | CFetchone | CFetchall => true
  | _ => false
  end.

Definition is_close (c : Call) : bool :=
  match c with
  | CCursorClose | CConnClose => true
  | _ => false
  end.

(** After the first call that ended in an error, the trace holds nothing but
    the two [close()] calls. *)
Fixpoint closes_after_error (tr : list Event) : bool :=
  match tr with
  | [] => true
  | (_, None) :: rest => closes_after_error rest
  | (_, Some _) :: rest => forallb (λ ev, is_close ev.1) rest
  end.

(** ** Symbolic execution of a handler *)

Ltac unfold_app :=
  unfold serve, answer, as_Task, as_Tasks, as_message, as_html,
    create_task, read_tasks, read_task, update_task, delete_task,
    read_root, ask_valentine, try_, bind, ret, raise, get_db_connection,
    conn_cursor, assign_cursor, cursor_execute, conn_commit, cursor_rowcount,
    cursor_lastrowid, cursor_fetchone, cursor_fetchall, cursor_close,
    conn_close, cursor_var, fallible, run_statement,
    log, count_call, set_cursor, set_txn, set_db, set_open, start.

Ltac exec_step :=
  match goal with
  | H : ∀ k, faults ?e k = None |- context [faults ?e ?k] => rewrite (H k)
  | H : connect_error ?e = _ |- context [connect_error ?e] => rewrite H
  | H : validate ?b = _ |- context [validate ?b] => rewrite H
  | H : ?m !! ?i = _ |- context [?m !! ?i] => rewrite H
  | |- context [<[?i := ?x]> ?m !! ?i] => rewrite (lookup_insert_eq m i x)
  | |- context [match faults ?e ?k with _ => _ end] =>
      destruct (faults e k) eqn:?
  | |- context [match connect_error ?e with _ => _ end] =>
      destruct (connect_error e) eqn:?
  | |- context [match validate ?b with _ => _ end] =>
      destruct (validate b) eqn:?
  | |- context [match @lookup _ _ (gmap Z Row) _ ?i ?m with _ => _ end] =>
      destruct (m !! i) eqn:?
  | |- context [_ <$> @lookup _ _ (gmap Z Row) _ ?i ?m] =>
      destruct (m !! i) eqn:?
  | |- context [if bool_decide ?P then _ else _] =>
      destruct (bool_decide_reflect P)
  | |- context [if found_rows ?c then _ else _] =>
      destruct (found_rows c) eqn:?
  end.

Ltac exec := unfold_app; cbn; repeat (exec_step; cbn).

(** Name the outcome of the request in the goal, run it, and replace the
    names by what the run gives. *)
Ltac run_serve :=
  match goal with
  | |- context [serve ?c ?e ?r ?d] =>
      let E := fresh "E" in
      destruct (serve c e r d) as [? ?] eqn:E; revert E
  end;
  exec; intros; simplify_eq; cbn in *.

(** Closes [wf_db] of the server a request leaves, from [wf_db] of the one
    it found. *)
Ltac wf_tac :=
  match goal with
  | Hwf : wf_db ?d |- wf_db _ =>
      let k := fresh "k" in let r := fresh "r" in let Hk := fresh "Hk" in
      intros k r Hk; cbn in *;
      repeat match goal with
      | H : <[_ := _]> _ !! _ = Some _ |- _ =>
          apply lookup_insert_Some in H as [[-> <-] | [? H]]
      | H : delete _ _ !! _ = Some _ |- _ =>
          apply lookup_delete_Some in H as [? H]
      end;
      cbn;
      try match goal with
      | H : tasks d !! _ = Some _ |- _ => specialize (Hwf _ _ H) 
      end;
      repeat match goal with
      | H : tasks d !! _ = Some _ |- _ => pose proof (Hwf _ _ H); clear H
      end;
      unfold updated_row; cbn; try case_match; lia
  end.

(** ** Kinds of requests and statements *)

(** The routes registered with [@app.get]. *)
Definition is_read (req : Request) : bool :=
  match req with
  | GetRoot | GetAsk | GetTasks | GetTask _ => true
  | PostTasks _ | PutTask _ _ | DeleteTask _ => false
  end.

Definition is_select (q : Statement) : bool :=
  match q with
  | SelectAll | SelectById _ => true
  | InsertTask _ | UpdateTask _ _ | DeleteById _ => false
  end.

(** ** The page of [GET /ask]

    The page carries a script with three variables and two functions, bound
    to the buttons "Yes" and "No". A [Page] holds the script's variables and
    what the script writes to the document: the two font sizes (in px), the
    text of [#message], and whether [.buttons] and [#happy-cat] are
    displayed. The script's numbers are taken as integers; in the script they
    are exact below 2^53. *)
Record Page := {
  yesSize : Z;
  noSize : Z;
  msgIndex : nat;
  yes_font : Z;
  no_font : Z;
  message : string;
  buttons_shown : bool;
  cat_shown : bool
}.

(** [const messages = [...]] *)
Definition messages : list string :=
  ["Are you sure? ðŸ˜¢";
   "Come on, think again! ðŸ¥º";
   "You're breaking my heart ðŸ’”";
   "Please reconsider! ðŸ¥¹";
   "This is your last chance! ðŸ˜­"].

(** The text shown once the messages are used up. *)
Definition no_escape_text : string :=
  "There's no escape! Say yes! ðŸ˜ˆ".

(** The text shown after "Yes". *)
Definition accepted_text : string :=
  "I knew you would accept! â¤ï¸".

(** The page as it is loaded: [let yesSize = 20; let noSize = 20;
    let msgIndex = 0], both buttons at [font-size: 20px], [#happy-cat] at
    [display: none]. *)
Definition loaded : Page :=
  {| yesSize := 20; noSize := 20; msgIndex := 0;
     yes_font := 20; no_font := 20;
     message := "Will you be my Valentine?";
     buttons_shown := true; cat_shown := false |}.

(** [function increaseYesSize()], the handler of "No". *)
Definition increaseYesSize (p : Page) : Page :=
  let y := yesSize p + 10 in
  let n := noSize p - 2 in
  if (msgIndex p <? length messages)%nat then
    {| yesSize := y; noSize := n; msgIndex := S (msgIndex p);
       yes_font := y; no_font := Z.max n 10;
       message := nth (msgIndex p) messages "undefined";
       buttons_shown := buttons_shown p; cat_shown := cat_shown p |}
  else
    {| yesSize := y; noSize := n; msgIndex := msgIndex p;
       yes_font := y; no_font := Z.max n 10;
       message := no_escape_text;
       buttons_shown := buttons_shown p; cat_shown := cat_shown p |}.

(** [function acceptValentine()], the handler of "Yes". *)
Definition acceptValentine (p : Page) : Page :=
  {| yesSize := yesSize p; noSize := noSize p; msgIndex := msgIndex p;
     yes_font := yes_font p; no_font := no_font p;
     message := accepted_text;
     buttons_shown := false; cat_shown := true |}.

(** [n] clicks on "No", from the page as loaded. *)
Definition after_no (n : nat) : Page := Nat.iter n increaseYesSize loaded.

(** ** Requests that reach the database *)

(** The request runs a handler that calls [get_db_connection()]: one of the
    five routes under [/tasks/], with a body that passes validation where the
    route takes one. *)
Definition opens_connection (req : Request) : bool :=
  match req with
  | GetRoot | GetAsk => false
  | GetTasks | GetTask _ | DeleteTask _ => true
  | PostTasks b | PutTask _ b =>
      match validate b with
      | Some _ => true
      | None => false
      end
  end.

(** The request is a PUT or a DELETE on the id [i]. *)
Definition addresses (i : Z) (req : Request) : bool :=
  match req with
  | PutTask j _ | DeleteTask j => bool_decide (j = i)
  | GetRoot | GetAsk | PostTasks _ | GetTasks | GetTask _ => false
  end.

(** ** The JSON of a task

    A response with [response_model=Task] is sent as a JSON object with the
    fields of the model, those of [TaskBase] first; a [datetime] is written
    by [isoformat()]. [JSON] has the values of the fields; the object is the
    list of its fields. *)
Inductive JSON :=
| JSNull
| JSBool (b : bool)
| JSNumber (n : Z)
| JSString (s : string).

(** The proleptic Gregorian date (year, month, day) of a day counted from
    1970-01-01. *)
Definition civil_from_days (z0 : Z) : Z * Z * Z :=
  let z := z0 + 719468 in
  let era := z / 146097 in
  let doe := z - era * 146097 in
  let yoe := (doe - doe / 1460 + doe / 36524 - doe / 146096) / 365 in
  let doy := doe - (365 * yoe + yoe / 4 - yoe / 100) in
  let mp := (5 * doy + 2) / 153 in
  let d := doy - (153 * mp + 2) / 5 + 1 in
  let m := if mp <? 10 then mp + 3 else mp - 9 in
  (yoe + era * 400 + (if m <=? 2 then 1 else 0), m, d).

Definition digit (k : Z) : Ascii.ascii := Ascii.ascii_of_N (48 + Z.to_N k).

Definition two_digits (n : Z) : string :=
  String (digit (n / 10)) (String (digit (n mod 10)) EmptyString).

Definition four_digits (n : Z) : string :=
  String (digit (n / 1000))
    (String (digit (n / 100 mod 10)) (two_digits (n mod 100))).

(** [datetime.isoformat()] of a datetime without microseconds:
    [YYYY-MM-DDTHH:MM:SS]. *)
Definition isoformat (t : Z) : string :=
  let '(y, m, d) := civil_from_days (t / 86400) in
  let s := t mod 86400 in
  four_digits y ++ "-" ++ two_digits m ++ "-" ++ two_digits d ++ "T"
  ++ two_digits (s / 3600) ++ ":" ++ two_digits (s mod 3600 / 60) ++ ":"
  ++ two_digits (s mod 60).

(** The first second of the year 10000: a datetime lies before it. *)
Definition datetime_end : Z := 253402300800.

Definition json_option {A} (f : A → JSON) (o : option A) : JSON :=
  match o with
  | Some a => f a
  | None => JSNull
  end.

Definition task_json (t : Task) : list (string * JSON) :=
  [("title", JSString (title t));
   ("description", json_option JSString (description t));
   ("completed", json_option JSBool (completed t));
   ("id", JSNumber (id t));
   ("created_at", JSString (isoformat (created_at t)));
   ("updated_at", JSString (isoformat (updated_at t)))].

(** *** The shape of a task object *)

Definition is_digit (c : Ascii.ascii) : bool :=
  (48 <=? Ascii.N_of_ascii c)%N && (Ascii.N_of_ascii c <=? 57)%N.

Definition digit_value (c : Ascii.ascii) : Z :=
  Z.of_N (Ascii.N_of_ascii c) - 48.

Definition number2 (a b : Ascii.ascii) : Z :=
  10 * digit_value a + digit_value b.

(** An ISO-8601 date and time in the extended format, to the second: four
    digits of year, a month from 01 to 12, a day from 01 to 31, [T], an hour
    below 24, a minute and a second below 60. *)
Definition is_iso8601 (s : string) : bool :=
  match String.list_ascii_of_string s with
  | [y1; y2; y3; y4; s1; m1; m2; s2; d1; d2; st; h1; h2; c1; n1; n2; c2;
     e1; e2] =>
      forallb is_digit [y1; y2; y3; y4; m1; m2; d1; d2; h1; h2; n1; n2; e1; e2]
      && Ascii.eqb s1 "-"%char && Ascii.eqb s2 "-"%char
      && Ascii.eqb st "T"%char
      && Ascii.eqb c1 ":"%char && Ascii.eqb c2 ":"%char
      && (1 <=? number2 m1 m2) && (number2 m1 m2 <=? 12)
      && (1 <=? number2 d1 d2) && (number2 d1 d2 <=? 31)
      && (number2 h1 h2 <=? 23) && (number2 n1 n2 <=? 59)
      && (number2 e1 e2 <=? 59)
  | _ => false
  end.

Fixpoint json_get (k : string) (fields : list (string * JSON)) : option JSON :=
  match fields with
  | [] => None
  | (k', v) :: rest => if String.eqb k k' then Some v else json_get k rest
  end.

Definition has_field (check : JSON → bool) (k : string)
    (fields : list (string * JSON)) : bool :=
  match json_get k fields with
  | Some v => check v
  | None => false
  end.

Definition is_int (j : JSON) : bool :=
  match j with
  | JSNumber _ => true
  | _ => false
  end.

Definition is_str (j : JSON) : bool :=
  match j with
  | JSString _ => true
  | _ => false
  end.

Definition is_bool (j : JSON) : bool :=
  match j with
  | JSBool _ => true
  | _ => false
  end.

Definition is_iso_str (j : JSON) : bool :=
  match j with
  | JSString s => is_iso8601 s
  | _ => false
  end.

Definition or_null (check : JSON → bool) (j : JSON) : bool :=
  match j with
  | JSNull => true
  | _ => check j
  end.

(** [{id: int, title: string, description: string|null, completed: bool,
    created_at: ISO-8601 string, updated_at: ISO-8601 string}], and nothing
    else; with [completed_nullable], [completed: bool|null]. *)
Definition task_shape (completed_nullable : bool)
    (fs : list (string * JSON)) : bool :=
  (length fs =? 6)%nat
  && has_field is_int "id" fs
  && has_field is_str "title" fs
  && has_field (or_null is_str) "description" fs
  && has_field (if completed_nullable then or_null is_bool else is_bool)
       "completed" fs
  && has_field is_iso_str "created_at" fs
  && has_field is_iso_str "updated_at" fs.

(** The server's clock is not before 1970, and no row was created or updated
    before 1970 or after the clock. *)
Definition times_ok (d : Database) : Prop :=
  0 ≤ now d
  ∧ ∀ i r, tasks d !! i = Some r →
      0 ≤ row_created_at r ≤ now d ∧ 0 ≤ row_updated_at r ≤ now d.

(** Closes the goals of [serve_times]: bounds on the datetimes of the rows
    and tasks a request leaves. *)
Ltac times_tac :=
  match goal with
  | Ht : 0 ≤ now ?d, Hrows : ∀ i r, tasks ?d !! i = Some r → _ |- _ =>
      repeat match goal with
      | |- _ ∧ _ => split
      | |- ∀ _, _ => intro
      | |- _ → _ => intro
      end;
      cbn in *;
      repeat match goal with
      | H : <[_ := _]> _ !! _ = Some _ |- _ =>
          apply lookup_insert_Some in H as [[? ?] | [? H]]
      | H : delete _ _ !! _ = Some _ |- _ =>
          apply lookup_delete_Some in H as [? H]
      | H : _ ∈ [] |- _ => by apply elem_of_nil in H
      | H : _ ∈ _ :: _ |- _ => apply elem_of_cons in H as [? | H]
      end;
      simplify_eq/=;
      repeat match goal with
      | H : tasks d !! _ = Some _ |- _ => apply Hrows in H
      end;
      unfold updated_row; cbn; try case_match; lia
  end.

(** * Properties

    ** The invariant *)

Lemma init_db_wf t0 : wf_db (init_db t0).
Proof. intros i r H. cbn in H. by rewrite lookup_empty in H. Qed.

Lemma serve_wf cfg env req d :
  wf_db d → wf_db (db (serve cfg env req d).2).
Proof.
  intros Hwf. destruct req; run_serve; try done; wf_tac.

Qed.

Lemma serve_all_wf cfg reqs d :
  wf_db d → wf_db (serve_all cfg reqs d).2.
Proof.
  revert d. induction reqs as [|[env req] rest IH]; intros d Hwf; [done|].
  cbn. pose proof (serve_wf cfg env req d Hwf) as Hs.
  destruct (serve cfg env req d) as [resp s]. cbn in Hs.
  specialize (IH _ Hs). by destruct (serve_all cfg rest (db s)).
Qed.

(** An id that is free and below the counter stays free: ids are not used
    twice. *)
Lemma serve_keeps_free cfg env req d i :
  tasks d !! i = None → i < next_id d →
  tasks (db (serve cfg env req d).2) !! i = None
  ∧ i < next_id (db (serve cfg env req d).2).
Proof.
  intros Hfree Hlt. destruct req; run_serve; split; try done; try lia.
  all: try (rewrite lookup_insert_ne; [done | lia]).
  all: destruct (decide (task_id = i)) as [-> |]; [congruence |].
  all: by rewrite ?lookup_insert_ne, ?lookup_delete_ne.
Qed.

Lemma serve_all_keeps_free cfg reqs d i :
  tasks d !! i = None → i < next_id d →
  tasks (serve_all cfg reqs d).2 !! i = None.
Proof.
  revert d. induction reqs as [|[env req] rest IH]; intros d Hfree Hlt; [done|].
  cbn. destruct (serve_keeps_free cfg env req d i Hfree Hlt) as [H1 H2].
  destruct (serve cfg env req d) as [resp s]. cbn in H1, H2.
  specialize (IH _ H1 H2). by destruct (serve_all cfg rest (db s)).
Qed.

Lemma closes_after_error_sound tr pre c msg post :
  closes_after_error tr = true →
  tr = (pre ++ (c, Some msg) :: post)%list →
  Forall (λ ev, is_close ev.1 = true) post.
Proof.
  revert pre. induction tr as [|[c' [m'|]] rest IH]; intros pre Hq Heq.
  - by destruct pre.
  - cbn in Hq. rewrite forallb_forall in Hq.
    apply Forall_forall. intros ev Hev. apply Hq, list_elem_of_In.
    destruct pre as [|ev' pre]; simplify_eq/=; [done |].
    apply elem_of_app. right. by right.
  - destruct pre as [|ev pre]; simplify_eq/=. by eapply IH.
Qed.

(** ** PUT: found, not found *)

Lemma update_task_absent cfg env d i b task :
  connect_error env = None → (∀ k, faults env k = None) →
  validate b = Some task → tasks d !! i = None →
  (serve cfg env (PutTask i b) d).1
  = {| status := 404; content := JDetail "Task not found" |}.
Proof. intros Hc Hf Hv Hi. by run_serve. Qed.

Lemma update_task_changed cfg env d i b task r :
  connect_error env = None → (∀ k, faults env k = None) →
  validate b = Some task → tasks d !! i = Some r → cols r ≠ task →
  (serve cfg env (PutTask i b) d).1
  = {| status := 200;
       content := JTask (row_to_dict i
                    (updated_row cfg task r (now d + Z.of_nat (elapsed env)))) |}.
Proof. intros Hc Hf Hv Hi Hne. by run_serve. Qed.

Lemma update_task_same cfg env d i b task r :
  connect_error env = None → (∀ k, faults env k = None) →
  validate b = Some task → tasks d !! i = Some r → cols r = task →
  (serve cfg env (PutTask i b) d).1
  = if found_rows cfg then {| status := 200; content := JTask (row_to_dict i r) |}
    else {| status := 404; content := JDetail "Task not found" |}.
Proof. intros Hc Hf Hv Hi He. run_serve; by try rewrite Heqb0. Qed.

(** ** The connection is closed when a cursor was created *)

Lemma closed_when_cursor_created cfg env req d :
  faults env 0 = None → conn_open (serve cfg env req d).2 = false.
Proof. intros H0. destruct req; by run_serve. Qed.

Lemma leak_when_cursor_fails cfg env req d msg :
  connect_error env = None → faults env 0 = Some msg →
  (req = GetTasks ∨ (∃ i, req = GetTask i ∨ req = DeleteTask i)
   ∨ ∃ b, is_Some (validate b) ∧ (req = PostTasks b ∨ ∃ i, req = PutTask i b)) →
  (serve cfg env req d).1 = internal_server_error
  ∧ conn_open (serve cfg env req d).2 = true
  ∧ trace (serve cfg env req d).2 = [(CConnect, None); (CCursor, Some msg)].
Proof.
  intros Hc H0 Hreq.
  destruct Hreq as [-> | [[i [-> | ->]] | [b [[t Ht] [-> | [i ->]]]]]];
    by run_serve.
Qed.

(** ** GET by id: found, not found *)

Lemma read_task_absent cfg env d i :
  connect_error env = None → (∀ k, faults env k = None) →
  tasks d !! i = None →
  (serve cfg env (GetTask i) d).1
  = {| status := 404; content := JDetail "Task not found" |}.
Proof. intros Hc Hf Hi. by run_serve. Qed.

Lemma read_task_present cfg env d i r :
  connect_error env = None → (∀ k, faults env k = None) →
  tasks d !! i = Some r →
  (serve cfg env (GetTask i) d).1
  = {| status := 200; content := JTask (row_to_dict i r) |}.
Proof. intros Hc Hf Hi. by run_serve. Qed.

(** ** Validation *)

Lemma validate_title b task :
  validate b = Some task → raw_title b = Value (title task).
Proof.
  unfold validate. destruct (raw_title b); intros; by simplify_eq.
Qed.

Lemma validate_completed b task :
  validate b = Some task →
  completed task = match raw_completed b with
                   | Value c => Some c
                   | Null => None
                   | Absent => Some false
                   end.
Proof.
  unfold validate. destruct (raw_title b); intros; by simplify_eq.
Qed.

(** ** [completed] stays set as long as no body gives it as [null] *)

Lemma serve_completed_set cfg env req d :
  completed_set d → null_completed req = false →
  Forall (λ t : Task, is_Some (completed t))
    (returned_tasks (serve cfg env req d).1)
  ∧ completed_set (db (serve cfg env req d).2).
Proof.
  intros Hd Hreq.
  assert (∀ b t, validate b = Some t →
            match raw_completed b with Null => true | _ => false end = false →
            is_Some (completed t)) as Hval.
  { intros b t Hv Hn. rewrite (validate_completed _ _ Hv).
    destruct (raw_completed b); by eauto. }
  destruct req; run_serve; unfold returned_tasks; cbn; split;
    try by (apply Forall_nil).
  all: try done.
  all: try (apply Forall_cons; split; [| by apply Forall_nil]; cbn).
  all: try (intros k r' Hk; cbn in Hk).
  all: repeat match goal with
       | H : <[_ := _]> _ !! _ = Some _ |- _ =>
           apply lookup_insert_Some in H as [[? ?] | [? H]]; simplify_eq/=
       | H : delete _ _ !! _ = Some _ |- _ =>
           apply lookup_delete_Some in H as [? H]
       end.
  all: try by eauto.
  apply Forall_fmap, Forall_forall. intros [k r] Hk%elem_of_map_to_list.
  cbn. by eauto.
Qed.

(** ** The claims *)

(** C1 (the code departs from it). [PUT /tasks/{id}] on an existing task
    with the values the task already has is answered 404 "Task not found":
    the handler takes [cursor.rowcount == 0] for "no such id", and an
    [UPDATE] that changes nothing reports no affected row. The task was
    created by a [POST] with the same body just before. *)
Theorem update_with_stored_values_is_404 (refresh : bool) :
  let cfg := default_flags refresh in
  is_Some (tasks (one_task cfg) !! 1)
  ∧ (serve cfg (calm 5) (PutTask 1 (just_title "Buy milk")) (one_task cfg)).1
    = {| status := 404; content := JDetail "Task not found" |}.
Proof.
  destruct refresh; (split; [eexists |]; vm_compute; reflexivity).
Qed.

(** C2. A [PUT /tasks/{id}] on an existing task that is answered 200 leaves
    a stored row whose [updated_at] is not before the previous one and whose
    title, description and completed are those of the validated body; the
    returned task is that row. *)
Theorem update_replaces_fully cfg env d i b task r resp s :
  wf_db d → tasks d !! i = Some r → validate b = Some task →
  serve cfg env (PutTask i b) d = (resp, s) → status resp = 200 →
  ∃ r', tasks (db s) !! i = Some r'
        ∧ resp = {| status := 200; content := JTask (row_to_dict i r') |}
        ∧ cols r' = task
        ∧ row_updated_at r ≤ row_updated_at r'
        ∧ row_created_at r' = row_created_at r.
Proof.
  intros Hwf Hi Hv E Hs. destruct (Hwf _ _ Hi) as [_ Hup].
  revert E. exec; intros; simplify_eq/=.
  - exists r. by rewrite Hi.
  - eexists. rewrite lookup_insert_eq. split_and!; try done.
    unfold updated_row; cbn. case_match; lia.
Qed.

Lemma update_replaces_fully_witness :
  let cfg := default_flags true in
  let out := serve cfg (calm 5) (PutTask 1 bread) (one_task cfg) in
  status out.1 = 200
  ∧ ∃ r', tasks (db out.2) !! 1 = Some r'
          ∧ out.1 = {| status := 200; content := JTask (row_to_dict 1 r') |}
          ∧ cols r' = {| title := "Buy bread"; description := Some "two loaves";
                         completed := Some true |}
          ∧ 101 ≤ row_updated_at r'
          ∧ row_created_at r' = 101.
Proof.
  intros cfg out. split; [reflexivity |].
  apply (update_replaces_fully cfg (calm 5) (one_task cfg) 1 bread _
           {| cols := {| title := "Buy milk"; description := None;
                         completed := Some false |};
              row_created_at := 101; row_updated_at := 101 |} out.1 out.2).
  - apply serve_all_wf, init_db_wf.
  - vm_compute. reflexivity.
  - reflexivity.
  - vm_compute. reflexivity.
  - reflexivity.
Defined.

(** C3 (as stated, false). A body whose title is the empty string passes
    validation: the handler runs and the row is inserted. *)
Lemma empty_title_is_accepted :
  let out := serve (default_flags true) (calm 1) (PostTasks (just_title ""))
               (init_db 100) in
  status out.1 = 200
  ∧ (CExecute (InsertTask {| title := ""; description := None;
                             completed := Some false |}), None) ∈ trace out.2.
Proof.
  split; [reflexivity |]. vm_compute.
  apply list_elem_of_further, list_elem_of_further, list_elem_of_here.
Qed.

(** C3 (amended). A [POST /tasks/] or [PUT /tasks/{id}] whose body has no
    title, or [null] for it, is answered 422 by the validation of the body;
    the handler does not run: no driver call is made and the process is in
    the state in which the request found it. *)
Theorem missing_title_is_rejected cfg env d req b :
  (req = PostTasks b ∨ ∃ i, req = PutTask i b) →
  (raw_title b = Absent ∨ raw_title b = Null) →
  serve cfg env req d = (unprocessable, start env d)
  ∧ 400 ≤ status unprocessable < 500
  ∧ trace (start env d) = [].
Proof.
  intros Hreq Ht.
  assert (validate b = None) as Hv.
  { unfold validate. by destruct Ht as [-> | ->]. }
  split; [| by cbn].
  destruct Hreq as [-> | [i ->]]; unfold serve; by rewrite Hv.
Qed.

Lemma missing_title_is_rejected_witness :
  raw_title no_title = Absent
  ∧ serve (default_flags true) (calm 1) (PutTask 1 no_title) (init_db 100)
    = (unprocessable, start (calm 1) (init_db 100)).
Proof.
  split; [reflexivity |].
  apply (missing_title_is_rejected (default_flags true) (calm 1) (init_db 100)
           (PutTask 1 no_title) no_title).
  - right. by exists 1.
  - left. reflexivity.
Defined.

(** C4. [POST /tasks/] with a body that holds a title and nothing else, when
    the connection is opened and no driver call fails, is answered 200 with
    a task whose [completed] is false, whose id is the one the server
    assigned, and whose [created_at] and [updated_at] are equal. *)
Theorem create_with_title_only cfg env d t resp s :
  connect_error env = None → (∀ k, faults env k = None) →
  serve cfg env (PostTasks (just_title t)) d = (resp, s) →
  ∃ task, resp = {| status := 200; content := JTask task |}
          ∧ title task = t
          ∧ description task = None
          ∧ completed task = Some false
          ∧ id task = next_id d
          ∧ created_at task = updated_at task.
Proof.
  intros Hc Hf E. revert E. exec. intros; simplify_eq.
  by eexists.
Qed.

Lemma create_with_title_only_witness :
  ∃ task,
    (serve (default_flags true) (calm 1) (PostTasks (just_title "Buy milk"))
       (init_db 100)).1 = {| status := 200; content := JTask task |}
    ∧ title task = "Buy milk"
    ∧ description task = None
    ∧ completed task = Some false
    ∧ id task = 1
    ∧ created_at task = updated_at task.
Proof.
  destruct (create_with_title_only (default_flags true) (calm 1) (init_db 100)
              "Buy milk"
              (serve (default_flags true) (calm 1)
                 (PostTasks (just_title "Buy milk")) (init_db 100)).1
              (serve (default_flags true) (calm 1)
                 (PostTasks (just_title "Buy milk")) (init_db 100)).2)
    as [task H].
  - reflexivity.
  - reflexivity.
  - vm_compute. reflexivity.
  - by exists task.
Defined.

(** C5 (the code departs from it). When [conn.cursor()] raises, the
    [finally] block reaches [cursor.close()] with [cursor] unbound; the
    [UnboundLocalError] leaves the block before [conn.close()], so the
    connection that was opened stays open, and the request is answered with
    a bare 500. *)
Theorem cursor_failure_leaves_connection_open :
  let out := serve (default_flags true)
               (failing_at 0 "MySQL Connection not available.")
               (PostTasks (just_title "Buy milk")) (init_db 100) in
  trace out.2 = [(CConnect, None);
                 (CCursor, Some "MySQL Connection not available.")]
  ∧ conn_open out.2 = true
  ∧ out.1 = internal_server_error.
Proof. by vm_compute. Qed.

(** C6. For every request that reaches one of the five handlers of
    [/tasks/]: if the connection cannot be opened, the answer is 500 with
    the fixed detail "Database connection failed", whatever the underlying
    error; if the connection and the cursor are there and the first
    statement, or the call after it (the commit, or the fetch of a read),
    raises a driver error, the answer is 500 with that error's message as
    detail. For every request, the same holds of the driver calls on record:
    a failed connection gives the fixed detail, a failed call that sends a
    statement or reads its result gives its message; and after a call that
    ended in an error no call other than the two [close()] calls is made. *)
Theorem failures_are_500 cfg env req d resp s :
  serve cfg env req d = (resp, s) →
  (opens_connection req = true → ∀ msg, connect_error env = Some msg →
     resp = {| status := 500; content := JDetail "Database connection failed" |})
  ∧ (opens_connection req = true → connect_error env = None →
     faults env 0 = None →
     ∀ msg, faults env 1 = Some msg
            ∨ (faults env 1 = None ∧ faults env 2 = Some msg) →
       resp = {| status := 500; content := JDetail msg |})
  ∧ (∀ msg, (CConnect, Some msg) ∈ trace s →
       resp = {| status := 500; content := JDetail "Database connection failed" |})
  ∧ (∀ c msg, is_statement c = true → (c, Some msg) ∈ trace s →
       resp = {| status := 500; content := JDetail msg |})
  ∧ (∀ pre c msg post, trace s = (pre ++ (c, Some msg) :: post)%list →
       Forall (λ ev, is_close ev.1 = true) post).
Proof.
  intros E. revert E. unfold opens_connection.
  destruct req; exec; intros; simplify_eq/=.
  all: split_and!;
    [ intros Ho msg Hm | intros Ho Hc H0 msg Hm | intros msg Hin
    | intros c msg Hc Hin
    | intros pre c msg post Htr;
      by eapply closes_after_error_sound; [| exact Htr] ].
  all: try done.
  all: try (by destruct Hm as [? | [? ?]]; simplify_eq).
  all: repeat (apply elem_of_cons in Hin as [Hin | Hin]; [by simplify_eq/= |]).
  all: by apply elem_of_nil in Hin.
Qed.

Lemma failures_are_500_witness :
  let down := {| elapsed := 0; connect_error := Some "Can't connect to MySQL";
                 faults := λ _, None |} in
  (serve (default_flags true) down (DeleteTask 1)
     (one_task (default_flags true))).1
  = {| status := 500; content := JDetail "Database connection failed" |}
  ∧ (serve (default_flags true) (failing_at 1 "Data too long")
       (PostTasks (just_title "Buy milk")) (init_db 100)).1
    = {| status := 500; content := JDetail "Data too long" |}.
Proof.
  intros down. split.
  - destruct (failures_are_500 (default_flags true) down (DeleteTask 1)
                (one_task (default_flags true))
                (serve (default_flags true) down (DeleteTask 1)
                   (one_task (default_flags true))).1
                (serve (default_flags true) down (DeleteTask 1)
                   (one_task (default_flags true))).2) as (Hconn & _).
    + vm_compute. reflexivity.
    + by apply (Hconn eq_refl "Can't connect to MySQL").
  - destruct (failures_are_500 (default_flags true)
                (failing_at 1 "Data too long")
                (PostTasks (just_title "Buy milk")) (init_db 100)
                (serve (default_flags true) (failing_at 1 "Data too long")
                   (PostTasks (just_title "Buy milk")) (init_db 100)).1
                (serve (default_flags true) (failing_at 1 "Data too long")
                   (PostTasks (just_title "Buy milk")) (init_db 100)).2)
      as (_ & Hstmt & _).
    + vm_compute. reflexivity.
    + apply (Hstmt eq_refl eq_refl eq_refl "Data too long"). by left.
Defined.

(** A row stays as it is under a request that is no PUT and no DELETE on
    its id. *)
Lemma serve_keeps_row cfg env req d i r :
  tasks d !! i = Some r → i < next_id d → addresses i req = false →
  tasks (db (serve cfg env req d).2) !! i = Some r
  ∧ i < next_id (db (serve cfg env req d).2).
Proof.
  intros Hi Hlt Hreq.
  destruct req; cbn in Hreq; try apply bool_decide_eq_false in Hreq;
    run_serve; split; try done; try lia.
  all: rewrite ?lookup_insert_ne, ?lookup_delete_ne by (done || lia); done.
Qed.

Lemma serve_all_keeps_row cfg reqs d i r :
  tasks d !! i = Some r → i < next_id d →
  Forall (λ er : Env * Request, addresses i er.2 = false) reqs →
  tasks (serve_all cfg reqs d).2 !! i = Some r.
Proof.
  revert d. induction reqs as [|[env req] rest IH]; intros d Hi Hlt Hreqs.
  { done. }
  apply Forall_cons in Hreqs as [Hreq Hrest]. cbn in Hreq |- *.
  destruct (serve_keeps_row cfg env req d i r Hi Hlt Hreq) as [H1 H2].
  destruct (serve cfg env req d) as [resp s]. cbn in H1, H2.
  specialize (IH _ H1 H2 Hrest). by destruct (serve_all cfg rest (db s)).
Qed.

(** C7. When a [POST /tasks/] or a [PUT /tasks/{id}] is answered 200 with a
    task, that task carries the title, description and completed of the
    validated body; and after any further requests, served under any
    failures, among which there is no PUT and no DELETE on its id, a
    [GET /tasks/{id}] for its id served without failure is answered 200 with
    the same task: the values last written. *)
Theorem read_after_write cfg env d req b task t s later env' :
  wf_db d →
  (req = PostTasks b ∨ ∃ i, req = PutTask i b) →
  validate b = Some task →
  serve cfg env req d = ({| status := 200; content := JTask t |}, s) →
  Forall (λ er : Env * Request, addresses (id t) er.2 = false) later →
  connect_error env' = None → (∀ k, faults env' k = None) →
  base t = task
  ∧ (serve cfg env' (GetTask (id t)) (serve_all cfg later (db s)).2).1
    = {| status := 200; content := JTask t |}.
Proof.
  intros Hwf Hreq Hv E Hlater Hc Hf.
  assert (∃ r, tasks (db s) !! id t = Some r ∧ row_to_dict (id t) r = t
               ∧ cols r = task ∧ id t < next_id (db s))
    as (r & Hr & Ht & Hcols & Hlt).
  { revert E. clear Hc Hf Hlater.
    destruct Hreq as [-> | [i ->]]; exec; intros; simplify_eq/=.
    all: eexists; rewrite ?lookup_insert_eq; split_and!; try done; try lia.
    all: match goal with
         | Hw : wf_db _, H : tasks _ !! _ = Some _ |- _ =>
             by destruct (Hw _ _ H)
         end. }
  split; [by rewrite <- Ht |].
  pose proof (serve_all_keeps_row cfg later (db s) (id t) r Hr Hlt Hlater)
    as Hkept.
  by rewrite (read_task_present cfg env' _ (id t) r Hc Hf Hkept), Ht.
Qed.

Lemma read_after_write_witness :
  let cfg := default_flags true in
  let t := {| base := {| title := "Buy bread"; description := Some "two loaves";
                         completed := Some true |};
              id := 1; created_at := 101; updated_at := 106 |} in
  let out := serve cfg (calm 5) (PutTask 1 bread) (one_task cfg) in
  let later := [(calm 1, PostTasks (just_title "Buy eggs"));
                (failing_at 2 "Deadlock found", PutTask 2 bread);
                (calm 1, GetTask 1); (calm 1, DeleteTask 2);
                (calm 1, GetTasks)] in
  out.1 = {| status := 200; content := JTask t |}
  ∧ (serve cfg (calm 9) (GetTask 1) (serve_all cfg later (db out.2)).2).1
    = {| status := 200; content := JTask t |}.
Proof.
  intros cfg t out later. split; [by vm_compute |].
  apply (read_after_write cfg (calm 5) (one_task cfg) (PutTask 1 bread) bread
           (base t) t out.2 later (calm 9)).
  - apply serve_all_wf, init_db_wf.
  - right. by exists 1.
  - reflexivity.
  - vm_compute. reflexivity.
  - repeat (apply Forall_cons; split; [reflexivity |]). by apply Forall_nil.
  - reflexivity.
  - reflexivity.
Defined.

(** C8. When [DELETE /tasks/{id}] is answered 200, the answer is the message
    "Task deleted successfully", and after any further requests a
    [GET /tasks/{id}] for that id, served without failure, is answered 404:
    the row is gone and the id is not assigned again. *)
Theorem deleted_task_stays_gone cfg env d i resp s :
  wf_db d → serve cfg env (DeleteTask i) d = (resp, s) → status resp = 200 →
  resp = {| status := 200; content := JMessage "Task deleted successfully" |}
  ∧ ∀ later env', connect_error env' = None → (∀ k, faults env' k = None) →
      (serve cfg env' (GetTask i) (serve_all cfg later (db s)).2).1
      = {| status := 404; content := JDetail "Task not found" |}.
Proof.
  intros Hwf E Hs.
  assert (resp = {| status := 200;
                    content := JMessage "Task deleted successfully" |}
          ∧ tasks (db s) !! i = None ∧ i < next_id (db s)) as (Hr & Hi & Hlt).
  { revert E. exec; intros; simplify_eq/=.
    split_and!; [done | apply lookup_delete_eq |].
    by destruct (Hwf _ _ Heqo3). }
  split; [done |]. intros later env' Hc Hf.
  apply read_task_absent; [done | done |].
  by apply serve_all_keeps_free.
Qed.

Lemma deleted_task_stays_gone_witness :
  let cfg := default_flags true in
  let out := serve cfg (calm 2) (DeleteTask 1) (one_task cfg) in
  status out.1 = 200
  ∧ (serve cfg (calm 1) (GetTask 1)
       (serve_all cfg [(calm 1, PostTasks bread); (calm 1, PutTask 1 bread)]
          (db out.2)).2).1
    = {| status := 404; content := JDetail "Task not found" |}.
Proof.
  intros cfg out. split; [reflexivity |].
  destruct (deleted_task_stays_gone cfg (calm 2) (one_task cfg) 1 out.1 out.2)
    as [_ H].
  - apply serve_all_wf, init_db_wf.
  - vm_compute. reflexivity.
  - reflexivity.
  - apply H; reflexivity.
Defined.

(** C9 (as stated, false). A body with an explicit [null] for [completed]
    is accepted, and the task returned has [completed] null. *)
Lemma null_completed_is_returned :
  ∃ t, (serve (default_flags true) (calm 1) (PostTasks null_flag)
          (init_db 100)).1 = {| status := 200; content := JTask t |}
       ∧ completed t = None.
Proof. eexists. split; [by vm_compute | done]. Qed.

(** On a server none of whose rows has a [NULL] in [completed], and for
    requests none of whose bodies gives [completed] as [null], every task of
    every response has a boolean [completed]. *)
Lemma completed_stays_boolean cfg reqs d :
  completed_set d →
  Forall (λ er : Env * Request, null_completed er.2 = false) reqs →
  Forall (λ resp, Forall (λ t : Task, is_Some (completed t))
                    (returned_tasks resp))
    (serve_all cfg reqs d).1.
Proof.
  revert d. induction reqs as [|[env req] rest IH]; intros d Hd Hreqs.
  { by apply Forall_nil. }
  apply Forall_cons in Hreqs as [Hreq Hrest]. cbn in Hreq |- *.
  destruct (serve_completed_set cfg env req d Hd Hreq) as [Hresp Hd'].
  destruct (serve cfg env req d) as [resp s]. cbn in Hresp, Hd'.
  specialize (IH _ Hd' Hrest).
  destruct (serve_all cfg rest (db s)) as [resps d']. cbn in IH |- *.
  by apply Forall_cons.
Qed.

(** ** Dates and times *)

Lemma civil_from_days_range z0 :
  0 ≤ z0 < 2932897 →
  0 ≤ (civil_from_days z0).1.1 ≤ 9999
  ∧ 1 ≤ (civil_from_days z0).1.2 ≤ 12
  ∧ 1 ≤ (civil_from_days z0).2 ≤ 31.
Proof.
  intros Hz. unfold civil_from_days.
  set (z := z0 + 719468).
  set (era := z / 146097).
  set (doe := z - era * 146097).
  assert (0 ≤ doe < 146097) as Hdoe
    by (unfold doe, era; Z.div_mod_to_equations; lia).
  set (yoe := (doe - doe / 1460 + doe / 36524 - doe / 146096) / 365).
  assert (0 ≤ yoe ≤ 399) as Hyoe by (unfold yoe; Z.div_mod_to_equations; lia).
  set (doy := doe - (365 * yoe + yoe / 4 - yoe / 100)).
  assert (0 ≤ doy ≤ 365) as Hdoy
    by (unfold doy, yoe; Z.div_mod_to_equations; lia).
  set (mp := (5 * doy + 2) / 153).
  assert (0 ≤ mp ≤ 11) as Hmp by (unfold mp; Z.div_mod_to_equations; lia).
  assert (1 ≤ doy - (153 * mp + 2) / 5 + 1 ≤ 31) as Hd
    by (unfold mp; Z.div_mod_to_equations; lia).
  assert (0 ≤ yoe + era * 400 ≤ 9999
          ∧ (yoe + era * 400 = 9999 → mp < 10)) as [Hy Hlast].
  { unfold mp, doy, yoe, doe, era, z in *. Z.div_mod_to_equations. lia. }
  cbn [fst snd].
  destruct (mp <? 10) eqn:E1;
    [apply Z.ltb_lt in E1 | apply Z.ltb_ge in E1];
    (destruct (_ <=? 2) eqn:E2;
       [apply Z.leb_le in E2 | apply Z.leb_gt in E2]); lia.
Qed.

Lemma digit_is_digit k :
  0 ≤ k ≤ 9 → is_digit (digit k) = true ∧ digit_value (digit k) = k.
Proof.
  intros Hk.
  assert (k = 0 ∨ k = 1 ∨ k = 2 ∨ k = 3 ∨ k = 4 ∨ k = 5 ∨ k = 6 ∨ k = 7
          ∨ k = 8 ∨ k = 9) as Hcases by lia.
  by repeat (destruct Hcases as [-> | Hcases]; [done |]); subst.
Qed.

Lemma two_digits_number n :
  0 ≤ n ≤ 99 →
  is_digit (digit (n / 10)) = true ∧ is_digit (digit (n mod 10)) = true
  ∧ number2 (digit (n / 10)) (digit (n mod 10)) = n.
Proof.
  intros Hn.
  destruct (digit_is_digit (n / 10)) as [H1 H1'];
    [Z.div_mod_to_equations; lia |].
  destruct (digit_is_digit (n mod 10)) as [H2 H2'];
    [Z.div_mod_to_equations; lia |].
  split_and!; [done | done |]. unfold number2. rewrite H1', H2'.
  Z.div_mod_to_equations; lia.
Qed.

(** [isoformat] writes an ISO-8601 date and time, for every second from
    1970 to the end of the year 9999. *)
Lemma isoformat_is_iso8601 t :
  0 ≤ t < datetime_end → is_iso8601 (isoformat t) = true.
Proof.
  unfold datetime_end. intros Ht. unfold isoformat.
  destruct (civil_from_days_range (t / 86400)) as (Hy & Hm & Hd);
    [Z.div_mod_to_equations; lia |].
  destruct (civil_from_days (t / 86400)) as [[y m] d]. cbn [fst snd] in *.
  set (s := t mod 86400).
  assert (0 ≤ s < 86400) as Hs by (unfold s; Z.div_mod_to_equations; lia).
  destruct (two_digits_number (y / 100)) as (Ha1 & Ha2 & _);
    [Z.div_mod_to_equations; lia |].
  destruct (two_digits_number (y mod 100)) as (Ha3 & Ha4 & _);
    [Z.div_mod_to_equations; lia |].
  destruct (two_digits_number m) as (Hm1 & Hm2 & Hm3); [lia |].
  destruct (two_digits_number d) as (Hd1 & Hd2 & Hd3); [lia |].
  destruct (two_digits_number (s / 3600)) as (Hh1 & Hh2 & Hh3);
    [Z.div_mod_to_equations; lia |].
  destruct (two_digits_number (s mod 3600 / 60)) as (Hn1 & Hn2 & Hn3);
    [Z.div_mod_to_equations; lia |].
  destruct (two_digits_number (s mod 60)) as (He1 & He2 & He3);
    [Z.div_mod_to_equations; lia |].
  assert (y / 1000 = y / 100 / 10) as Hq1 by (Z.div_mod_to_equations; lia).
  unfold is_iso8601, four_digits, two_digits.
  cbv [String.append String.list_ascii_of_string forallb].
  rewrite Hq1, Ha1, Ha2, Ha3, Ha4, Hm1, Hm2, Hd1, Hd2, Hh1, Hh2, Hn1, Hn2,
    He1, He2, Hm3, Hd3, Hh3, Hn3, He3.
  cbn -[Z.leb Z.div Z.modulo].
  repeat (apply andb_true_intro; split); try done;
    apply Z.leb_le; try lia; Z.div_mod_to_equations; lia.
Qed.

Lemma task_json_shape (t : Task) :
  0 ≤ created_at t < datetime_end → 0 ≤ updated_at t < datetime_end →
  task_shape true (task_json t) = true
  ∧ (is_Some (completed t) → task_shape false (task_json t) = true).
Proof.
  intros Hc Hu. unfold task_shape, task_json, has_field.
  cbn -[isoformat is_iso8601].
  rewrite (isoformat_is_iso8601 _ Hc), (isoformat_is_iso8601 _ Hu).
  split.
  - by destruct (description t), (completed t).
  - intros [b ->]. by destruct (description t).
Qed.

(** The clock only moves forward, [times_ok] is kept, and the datetimes of
    the tasks of a response lie between 1970 and the clock. *)
Lemma serve_times cfg env req d :
  times_ok d →
  now d ≤ now (db (serve cfg env req d).2)
  ∧ times_ok (db (serve cfg env req d).2)
  ∧ ∀ t, t ∈ returned_tasks (serve cfg env req d).1 →
      0 ≤ created_at t ≤ now (db (serve cfg env req d).2)
      ∧ 0 ≤ updated_at t ≤ now (db (serve cfg env req d).2).
Proof.
  intros [Ht Hrows]. unfold times_ok, returned_tasks.
  destruct req; run_serve; try times_tac.
  all: split; [lia |]; split; [split; [lia |]; intros i r Hi | intros t Ht'].
  all: try (apply Hrows in Hi; lia).
  apply list_elem_of_fmap in Ht' as [[i r] [-> Hi%elem_of_map_to_list]].
  cbn. apply Hrows in Hi. lia.
Qed.

Lemma serve_all_times cfg reqs d :
  times_ok d →
  Forall (λ resp, ∀ t, t ∈ returned_tasks resp →
            0 ≤ created_at t ≤ now (serve_all cfg reqs d).2
            ∧ 0 ≤ updated_at t ≤ now (serve_all cfg reqs d).2)
    (serve_all cfg reqs d).1.
Proof.
  revert d. induction reqs as [|[env req] rest IH]; intros d Hd.
  { by apply Forall_nil. }
  cbn. destruct (serve_times cfg env req d Hd) as (Hmono & Hd' & Hresp).
  destruct (serve cfg env req d) as [resp s]. cbn in Hmono, Hd', Hresp.
  specialize (IH (db s) Hd').
  assert (now (db s) ≤ now (serve_all cfg rest (db s)).2) as Hlater.
  { clear -Hd'. revert Hd'. generalize (db s). clear s.
    induction rest as [|[env' req'] rest IH']; intros d0 Hd0; [done |].
    cbn. destruct (serve_times cfg env' req' d0 Hd0) as (Hm & Hd1 & _).
    destruct (serve cfg env' req' d0) as [resp' s']. cbn in Hm, Hd1.
    specialize (IH' (db s') Hd1).
    destruct (serve_all cfg rest (db s')). cbn in *. lia. }
  destruct (serve_all cfg rest (db s)) as [resps d']. cbn in *.
  apply Forall_cons. split; [| done].
  intros t Ht. specialize (Hresp t Ht). lia.
Qed.

(** C9 (amended). Every task of every response is sent as an object with
    exactly the fields [id] (an integer), [title] (a string), [description]
    (a string or null), [completed] (a boolean or null), [created_at] and
    [updated_at] (ISO-8601 strings); and [completed] is a boolean in every
    response when no row of the server has a [NULL] there and no request
    gives it as [null]. The clock of the server is taken to stay between
    1970 and the end of the year 9999, the datetimes there are. *)
Theorem task_objects_have_the_shape cfg reqs d :
  times_ok d → now (serve_all cfg reqs d).2 < datetime_end →
  Forall (λ resp, Forall (λ t, task_shape true (task_json t) = true)
                    (returned_tasks resp))
    (serve_all cfg reqs d).1
  ∧ (completed_set d →
     Forall (λ er : Env * Request, null_completed er.2 = false) reqs →
     Forall (λ resp, Forall (λ t, task_shape false (task_json t) = true)
                       (returned_tasks resp))
       (serve_all cfg reqs d).1).
Proof.
  intros Hd Hend. pose proof (serve_all_times cfg reqs d Hd) as Htimes.
  split.
  - eapply Forall_impl; [exact Htimes |]. intros resp Hresp.
    apply Forall_forall. intros t Ht. destruct (Hresp t Ht).
    apply task_json_shape; lia.
  - intros Hset Hreqs.
    pose proof (completed_stays_boolean cfg reqs d Hset Hreqs) as Hbool.
    pose proof (conj Htimes Hbool) as Hboth. apply Forall_and in Hboth.
    eapply Forall_impl; [exact Hboth |]. intros resp [Hresp Hb].
    apply Forall_forall. intros t Ht. destruct (Hresp t Ht).
    rewrite Forall_forall in Hb.
    apply task_json_shape; [lia | lia | by apply Hb].
Qed.

Lemma task_objects_have_the_shape_witness :
  Forall (λ resp, Forall (λ t, task_shape false (task_json t) = true)
                    (returned_tasks resp))
    (serve_all (default_flags true)
       [(calm 1, PostTasks (just_title "Buy milk"));
        (calm 1, PutTask 1 bread); (calm 1, GetTasks)]
       (init_db 1739527200)).1.
Proof.
  destruct (task_objects_have_the_shape (default_flags true)
              [(calm 1, PostTasks (just_title "Buy milk"));
               (calm 1, PutTask 1 bread); (calm 1, GetTasks)]
              (init_db 1739527200)) as [_ H].
  - split; [by vm_compute |]. intros i r Hi. cbn in Hi.
    by rewrite lookup_empty in Hi.
  - by vm_compute.
  - apply H.
    + intros i r Hi. cbn in Hi. by rewrite lookup_empty in Hi.
    + repeat (apply Forall_cons; split; [reflexivity |]). by apply Forall_nil.
Defined.

(** C10. When [PUT /tasks/{id}] or [DELETE /tasks/{id}] is answered 404, the
    table of tasks on the server is the one the request found. *)
Theorem not_found_leaves_tasks cfg env req d resp s :
  ((∃ i b, req = PutTask i b) ∨ ∃ i, req = DeleteTask i) →
  serve cfg env req d = (resp, s) → status resp = 404 →
  tasks (db s) = tasks d.
Proof.
  intros Hreq E Hs. revert E.
  destruct Hreq as [(i & b & ->) | [i ->]]; exec; intros; by simplify_eq/=.
Qed.

Lemma not_found_leaves_tasks_witness :
  let cfg := default_flags true in
  let out := serve cfg (calm 3) (DeleteTask 7) (one_task cfg) in
  status out.1 = 404 ∧ tasks (db out.2) = tasks (one_task cfg).
Proof.
  intros cfg out. split; [reflexivity |].
  apply (not_found_leaves_tasks cfg (calm 3) (DeleteTask 7) (one_task cfg)
           out.1 out.2).
  - right. by exists 7.
  - vm_compute. reflexivity.
  - reflexivity.
Defined.

(** ** Further properties of the handlers *)

(** X1. A request on one of the GET routes leaves the table of tasks and
    the auto-increment counter as they were, whatever fails; it never
    commits, and the only statements it executes are SELECTs. *)
Theorem reads_change_nothing cfg env req d resp s :
  is_read req = true → serve cfg env req d = (resp, s) →
  tasks (db s) = tasks d
  ∧ next_id (db s) = next_id d
  ∧ ∀ c o, (c, o) ∈ trace s →
      c ≠ CCommit ∧ ∀ q, c = CExecute q → is_select q = true.
Proof.
  intros Hr E. revert E. destruct req; try done; exec; intros; simplify_eq/=.
  all: split_and!; try done; intros c o Hin.
  all: repeat (apply elem_of_cons in Hin as [Hin | Hin];
               [simplify_eq/=; split; [done | by intros q [= <-]] |]).
  all: by apply elem_of_nil in Hin.
Qed.

Lemma reads_change_nothing_witness :
  let cfg := default_flags true in
  let out := serve cfg (failing_at 2 "Lost connection") (GetTask 1)
               (one_task cfg) in
  tasks (db out.2) = tasks (one_task cfg)
  ∧ next_id (db out.2) = next_id (one_task cfg).
Proof.
  intros cfg out.
  destruct (reads_change_nothing cfg (failing_at 2 "Lost connection")
              (GetTask 1) (one_task cfg) out.1 out.2) as (H1 & H2 & _).
  - reflexivity.
  - vm_compute. reflexivity.
  - by split.
Defined.

(** X2. [GET /tasks/], served without failure, is answered 200 with the
    table: as many tasks as there are rows, no id twice, and a task is in
    the list exactly when it is the stored row of its id. *)
Theorem list_returns_the_table cfg env d resp s :
  connect_error env = None → (∀ k, faults env k = None) →
  serve cfg env GetTasks d = (resp, s) →
  ∃ ts, resp = {| status := 200; content := JTasks ts |}
        ∧ length ts = size (tasks d)
        ∧ NoDup (id <$> ts)
        ∧ ∀ t, t ∈ ts ↔ ∃ r, tasks d !! id t = Some r
                              ∧ t = row_to_dict (id t) r.
Proof.
  intros Hc Hf E. revert E. exec. intros; simplify_eq/=.
  eexists. split_and!; [done | | |].
  - by rewrite length_fmap, length_map_to_list.
  - replace (id <$> ((λ p, row_to_dict p.1 p.2) <$> map_to_list (tasks d)))
      with ((map_to_list (tasks d)).*1); [apply NoDup_fst_map_to_list |].
    rewrite <- list_fmap_compose. apply list_fmap_ext. by intros ? [? ?].
  - intros t. rewrite list_elem_of_fmap. split.
    + intros [[i r] [-> Hir%elem_of_map_to_list]]. by exists r.
    + intros [r [Hr Ht]]. exists (id t, r). split; [done |].
      by apply elem_of_map_to_list.
Qed.

Lemma list_returns_the_table_witness :
  let cfg := default_flags true in
  ∃ ts, (serve cfg (calm 1) GetTasks (one_task cfg)).1
        = {| status := 200; content := JTasks ts |}
        ∧ length ts = 1%nat.
Proof.
  intros cfg.
  destruct (list_returns_the_table cfg (calm 1) (one_task cfg)
              (serve cfg (calm 1) GetTasks (one_task cfg)).1
              (serve cfg (calm 1) GetTasks (one_task cfg)).2)
    as (ts & H1 & H2 & _).
  - reflexivity.
  - reflexivity.
  - vm_compute. reflexivity.
  - exists ts. split; [exact H1 |]. rewrite H2. by vm_compute.
Defined.

(** X3. [POST /tasks/] with a valid body, served without failure, adds
    exactly one row: the id it gets was not in use, the row holds the body's
    values and is the task returned, every other id reads as before, and the
    counter has moved on by one. *)
Theorem create_adds_one_task cfg env d b task resp s :
  wf_db d → connect_error env = None → (∀ k, faults env k = None) →
  validate b = Some task →
  serve cfg env (PostTasks b) d = (resp, s) →
  tasks d !! next_id d = None
  ∧ (∃ r, tasks (db s) !! next_id d = Some r ∧ cols r = task
          ∧ resp = {| status := 200;
                      content := JTask (row_to_dict (next_id d) r) |})
  ∧ (∀ j, j ≠ next_id d → tasks (db s) !! j = tasks d !! j)
  ∧ size (tasks (db s)) = S (size (tasks d))
  ∧ next_id (db s) = next_id d + 1.
Proof.
  intros Hwf Hc Hf Hv E.
  assert (tasks d !! next_id d = None) as Hfree.
  { destruct (tasks d !! next_id d) as [r |] eqn:Hr; [| done].
    destruct (Hwf _ _ Hr). lia. }
  revert E. exec. intros; simplify_eq/=.
  split_and!; [done | | | | done].
  - eexists. by rewrite lookup_insert_eq.
  - intros j Hj. by rewrite lookup_insert_ne.
  - by apply map_size_insert_None.
Qed.

Lemma create_adds_one_task_witness :
  let cfg := default_flags true in
  let out := serve cfg (calm 1) (PostTasks bread) (one_task cfg) in
  size (tasks (db out.2)) = 2%nat ∧ next_id (db out.2) = 3.
Proof.
  intros cfg out.
  destruct (create_adds_one_task cfg (calm 1) (one_task cfg) bread
              {| title := "Buy bread"; description := Some "two loaves";
                 completed := Some true |} out.1 out.2)
    as (_ & _ & _ & H4 & H5).
  - apply serve_all_wf, init_db_wf.
  - reflexivity.
  - reflexivity.
  - reflexivity.
  - vm_compute. reflexivity.
  - split; [rewrite H4 | rewrite H5]; by vm_compute.
Defined.

(** X4. [PUT /tasks/{id}] and [DELETE /tasks/{id}], whatever fails, leave
    every other id and the counter as they were; a PUT neither creates nor
    removes the row of its id. *)
Theorem other_tasks_untouched cfg env req d i resp s :
  ((∃ b, req = PutTask i b) ∨ req = DeleteTask i) →
  serve cfg env req d = (resp, s) →
  (∀ j, j ≠ i → tasks (db s) !! j = tasks d !! j)
  ∧ next_id (db s) = next_id d
  ∧ ((∃ b, req = PutTask i b) →
     (is_Some (tasks (db s) !! i) ↔ is_Some (tasks d !! i))).
Proof.
  intros Hreq E. revert E.
  destruct Hreq as [[b ->] | ->]; exec; intros; simplify_eq/=.
  all: split_and!; try done.
  all: try (intros j Hj; by rewrite ?lookup_insert_ne, ?lookup_delete_ne).
  all: try (intros _; rewrite ?lookup_insert_eq; split; intros _; by eauto).
  all: try by intros [? [=]].
  all: intros _; match goal with H : _ !! _ = _ |- _ => by rewrite H end.
Qed.

Lemma other_tasks_untouched_witness :
  let cfg := default_flags true in
  let out := serve cfg (calm 1) (DeleteTask 2)
               (serve cfg (calm 1) (PostTasks bread) (one_task cfg)).2.(db) in
  tasks (db out.2) !! 1 = tasks (one_task cfg) !! 1.
Proof.
  intros cfg out.
  destruct (other_tasks_untouched cfg (calm 1) (DeleteTask 2)
              (serve cfg (calm 1) (PostTasks bread) (one_task cfg)).2.(db)
              2 out.1 out.2) as (H1 & _).
  - by right.
  - vm_compute. reflexivity.
  - rewrite H1 by done. by vm_compute.
Defined.

(** X5. [DELETE /tasks/{id}], served without failure, removes the row of
    that id and nothing else; it is answered 200 when the row was there and
    404 when it was not, and a second DELETE of the same id is answered
    404. *)
Theorem delete_removes_the_row cfg env d i resp s :
  connect_error env = None → (∀ k, faults env k = None) →
  serve cfg env (DeleteTask i) d = (resp, s) →
  tasks (db s) = delete i (tasks d)
  ∧ (is_Some (tasks d !! i) →
     resp = {| status := 200;
               content := JMessage "Task deleted successfully" |})
  ∧ (tasks d !! i = None →
     resp = {| status := 404; content := JDetail "Task not found" |})
  ∧ ∀ env', connect_error env' = None → (∀ k, faults env' k = None) →
      (serve cfg env' (DeleteTask i) (db s)).1
      = {| status := 404; content := JDetail "Task not found" |}.
Proof.
  intros Hc Hf E.
  assert (tasks (db s) = delete i (tasks d)) as Hdel.
  { revert E. exec; intros; simplify_eq/=; [done |]. by rewrite delete_id. }
  split; [done |]. split_and!.
  - intros [r Hr]. revert E. exec. by intros; simplify_eq/=.
  - intros Hr. revert E. exec. by intros; simplify_eq/=.
  - intros env' Hc' Hf'.
    assert (tasks (db s) !! i = None) as Hi.
    { rewrite Hdel. apply lookup_delete_eq. }
    clear E Hdel. by run_serve.
Qed.

Lemma delete_removes_the_row_witness :
  let cfg := default_flags true in
  let out := serve cfg (calm 1) (DeleteTask 1) (one_task cfg) in
  out.1 = {| status := 200; content := JMessage "Task deleted successfully" |}
  ∧ (serve cfg (calm 1) (DeleteTask 1) (db out.2)).1
    = {| status := 404; content := JDetail "Task not found" |}.
Proof.
  intros cfg out.
  destruct (delete_removes_the_row cfg (calm 1) (one_task cfg) 1 out.1 out.2)
    as (_ & H2 & _ & H4).
  - reflexivity.
  - reflexivity.
  - vm_compute. reflexivity.
  - split; [apply H2; eexists; by vm_compute | by apply H4].
Defined.

(** X6. Whatever fails, [GET /tasks/{id}] is answered 200 only with the
    stored row of that very id, and 404 only when no row has that id. *)
Theorem read_is_sound cfg env d i resp s :
  serve cfg env (GetTask i) d = (resp, s) →
  (status resp = 200 →
   ∃ r, tasks d !! i = Some r
        ∧ resp = {| status := 200; content := JTask (row_to_dict i r) |})
  ∧ (status resp = 404 → tasks d !! i = None).
Proof.
  intros E. revert E. exec; intros; simplify_eq/=; split; try done.
  intros _. by eexists.
Qed.

Lemma read_is_sound_witness :
  let cfg := default_flags true in
  ∃ r, tasks (one_task cfg) !! 1 = Some r
       ∧ (serve cfg (calm 4) (GetTask 1) (one_task cfg)).1
         = {| status := 200; content := JTask (row_to_dict 1 r) |}.
Proof.
  intros cfg.
  destruct (read_is_sound cfg (calm 4) (one_task cfg) 1
              (serve cfg (calm 4) (GetTask 1) (one_task cfg)).1
              (serve cfg (calm 4) (GetTask 1) (one_task cfg)).2) as [H _].
  - vm_compute. reflexivity.
  - apply H. reflexivity.
Defined.

(** X7. When the connection cannot be opened, or one of the first three
    driver calls of the handler raises (for the writing handlers: the cursor,
    the statement, the commit), the table of tasks is left as it was. *)
Theorem early_failure_changes_nothing cfg env req d resp s :
  (connect_error env ≠ None ∨ faults env 0 ≠ None
   ∨ faults env 1 ≠ None ∨ faults env 2 ≠ None) →
  serve cfg env req d = (resp, s) →
  tasks (db s) = tasks d.
Proof.
  intros Hfail E. revert E. destruct req; exec; intros; simplify_eq/=.
  all: try done.
  all: by destruct Hfail as [? | [? | [? | ?]]].
Qed.

Lemma early_failure_changes_nothing_witness :
  let cfg := default_flags true in
  let out := serve cfg (failing_at 2 "Deadlock found") (PutTask 1 bread)
               (one_task cfg) in
  out.1 = {| status := 500; content := JDetail "Deadlock found" |}
  ∧ tasks (db out.2) = tasks (one_task cfg).
Proof.
  intros cfg out. split; [by vm_compute |].
  apply (early_failure_changes_nothing cfg (failing_at 2 "Deadlock found")
           (PutTask 1 bread) (one_task cfg) out.1 out.2).
  - right. right. right. by vm_compute.
  - vm_compute. reflexivity.
Defined.

(** X8. When the statement and the commit of a [POST /tasks/] or of a
    [PUT /tasks/{id}] that changes the row succeed and the SELECT that reads
    the row back raises, the request is answered 500 with the error's
    message, and the write stays: the new row, or the new values, are in the
    table. *)
Theorem write_survives_failed_reread cfg env d b task msg :
  connect_error env = None →
  faults env 0 = None → faults env 1 = None → faults env 2 = None →
  faults env 3 = Some msg →
  validate b = Some task →
  ((serve cfg env (PostTasks b) d).1
     = {| status := 500; content := JDetail msg |}
   ∧ ∃ r, tasks (db (serve cfg env (PostTasks b) d).2) !! next_id d = Some r
          ∧ cols r = task)
  ∧ ∀ i r, tasks d !! i = Some r → cols r ≠ task →
      (serve cfg env (PutTask i b) d).1
        = {| status := 500; content := JDetail msg |}
      ∧ ∃ r', tasks (db (serve cfg env (PutTask i b) d).2) !! i = Some r'
              ∧ cols r' = task.
Proof.
  intros Hc H0 H1 H2 H3 Hv. split.
  - unfold_app; cbn. rewrite Hv, Hc; cbn. rewrite H0; cbn. rewrite H1; cbn.
    rewrite H2; cbn. rewrite H3; cbn. split; [done |].
    eexists. by rewrite lookup_insert_eq.
  - intros i r Hi Hne.
    unfold_app; cbn. rewrite Hv, Hc; cbn. rewrite H0; cbn. rewrite H1; cbn.
    rewrite Hi; cbn. destruct (bool_decide_reflect (cols r = task)); [done |].
    cbn. rewrite H2; cbn. rewrite H3; cbn. split; [done |].
    eexists. by rewrite lookup_insert_eq.
Qed.

Lemma write_survives_failed_reread_witness :
  let cfg := default_flags true in
  let out := serve cfg (failing_at 3 "Lost connection") (PostTasks bread)
               (one_task cfg) in
  out.1 = {| status := 500; content := JDetail "Lost connection" |}
  ∧ ∃ r, tasks (db out.2) !! 2 = Some r
         ∧ cols r = {| title := "Buy bread"; description := Some "two loaves";
                       completed := Some true |}.
Proof.
  intros cfg out.
  destruct (write_survives_failed_reread cfg (failing_at 3 "Lost connection")
              (one_task cfg) bread
              {| title := "Buy bread"; description := Some "two loaves";
                 completed := Some true |} "Lost connection")
    as [H _].
  - reflexivity.
  - reflexivity.
  - reflexivity.
  - reflexivity.
  - reflexivity.
  - reflexivity.
  - exact H.
Defined.

(** X9. For a request that reaches a handler (a [Request]: one of the
    seven routes, the id in the path an integer), the response has status
    200, 404, 422 or 500. Such a 404 carries the detail "Task not found" and
    is given only by the three routes with an id in the path; such a 422 is
    given exactly for a POST or PUT whose body fails validation; the routes
    [/] and [/ask] are always answered 200. What the framework answers by
    itself (an id that is not an integer, an unknown path or method) is not
    covered. *)
Theorem status_codes cfg env req d resp s :
  serve cfg env req d = (resp, s) →
  (status resp = 200 ∨ status resp = 404 ∨ status resp = 422
   ∨ status resp = 500)
  ∧ (status resp = 404 →
     content resp = JDetail "Task not found"
     ∧ ∃ i, req = GetTask i ∨ req = DeleteTask i ∨ ∃ b, req = PutTask i b)
  ∧ (status resp = 422 ↔
     ∃ b, validate b = None ∧ (req = PostTasks b ∨ ∃ i, req = PutTask i b))
  ∧ (req = GetRoot ∨ req = GetAsk → status resp = 200).
Proof.
  intros E. revert E. destruct req; exec; intros; simplify_eq/=.
  all: split_and!; try (by auto); try (by intros [? | ?]).
  all: try (intros _; split; [done | by eauto 6]).
  all: try (split; [done |]; intros (b' & Hb' & [? | [? ?]]); by simplify_eq).
  all: split; [intros _; by eauto 6 | done].
Qed.

Lemma status_codes_witness :
  status (serve (default_flags true) (calm 1) (PutTask 1 no_title)
            (init_db 100)).1 = 422.
Proof.
  destruct (status_codes (default_flags true) (calm 1) (PutTask 1 no_title)
              (init_db 100)
              (serve (default_flags true) (calm 1) (PutTask 1 no_title)
                 (init_db 100)).1
              (serve (default_flags true) (calm 1) (PutTask 1 no_title)
                 (init_db 100)).2) as (_ & _ & H & _).
  - reflexivity.
  - apply H. exists no_title. split; [reflexivity |]. right. by exists 1.
Defined.

(** ** Ids and creation times over a sequence of requests *)

Lemma serve_next_id_mono cfg env req d :
  next_id d ≤ next_id (db (serve cfg env req d).2).
Proof. destruct req; run_serve; lia. Qed.

Lemma serve_all_next_id_mono cfg reqs d :
  next_id d ≤ next_id (serve_all cfg reqs d).2.
Proof.
  revert d. induction reqs as [|[env req] rest IH]; intros d; [done |].
  cbn. pose proof (serve_next_id_mono cfg env req d) as H1.
  destruct (serve cfg env req d) as [resp s]. cbn in H1.
  specialize (IH (db s)). destruct (serve_all cfg rest (db s)). cbn in *. lia.
Qed.

Lemma serve_keeps_created cfg env req d i r r' :
  wf_db d → tasks d !! i = Some r →
  tasks (db (serve cfg env req d).2) !! i = Some r' →
  row_created_at r' = row_created_at r
  ∧ row_updated_at r ≤ row_updated_at r'.
Proof.
  intros Hwf Hi. destruct (Hwf _ _ Hi) as [Hlt Hup]. revert r'.
  destruct req; run_serve.
  all: repeat match goal with
       | H : <[_ := _]> _ !! _ = Some _ |- _ =>
           apply lookup_insert_Some in H as [[? ?] | [? H]]
       | H : delete _ _ !! _ = Some _ |- _ =>
           apply lookup_delete_Some in H as [? H]
       end; simplify_eq/=; try done; try lia.
  all: unfold updated_row; cbn; split; [done |]; case_match; lia.
Qed.

Lemma create_task_id cfg env d b t s :
  serve cfg env (PostTasks b) d
  = ({| status := 200; content := JTask t |}, s) →
  id t = next_id d ∧ next_id (db s) = next_id d + 1.
Proof. exec; intros; by simplify_eq/=. Qed.

(** X10. Over any sequence of requests, a task that is there before and
    after has kept its [created_at], and its [updated_at] has not gone
    back: no handler writes [created_at], and an id is not given twice. *)
Theorem created_at_is_fixed cfg reqs d i r r' :
  wf_db d → tasks d !! i = Some r →
  tasks (serve_all cfg reqs d).2 !! i = Some r' →
  row_created_at r' = row_created_at r
  ∧ row_updated_at r ≤ row_updated_at r'.
Proof.
  revert d r. induction reqs as [|[env req] rest IH]; intros d r Hwf Hi Hr'.
  { cbn in Hr'. simplify_eq. by split. }
  cbn in Hr'.
  pose proof (serve_wf cfg env req d Hwf) as Hwf1.
  pose proof (serve_keeps_created cfg env req d i r) as Hstep.
  pose proof (serve_next_id_mono cfg env req d) as Hmono.
  destruct (serve cfg env req d) as [resp s]. cbn in Hwf1, Hstep, Hmono.
  destruct (tasks (db s) !! i) as [r1 |] eqn:Hi1.
  - destruct (Hstep r1 Hwf Hi eq_refl) as [Hc Hu].
    specialize (IH (db s) r1 Hwf1 Hi1).
    destruct (serve_all cfg rest (db s)) as [resps d']. cbn in *.
    destruct (IH Hr') as [Hc' Hu']. split; [congruence | lia].
  - destruct (Hwf _ _ Hi) as [Hlt _].
    assert (i < next_id (db s)) as Hlt1 by lia.
    pose proof (serve_all_keeps_free cfg rest (db s) i Hi1 Hlt1) as Hnone.
    destruct (serve_all cfg rest (db s)) as [resps d']. cbn in *. congruence.
Qed.

Lemma created_at_is_fixed_witness :
  let cfg := default_flags true in
  ∃ r', tasks (serve_all cfg [(calm 5, PutTask 1 bread); (calm 2, GetTasks)]
                 (one_task cfg)).2 !! 1 = Some r'
        ∧ row_created_at r' = 101 ∧ 101 ≤ row_updated_at r'.
Proof.
  intros cfg. eexists. split; [by vm_compute |].
  apply (created_at_is_fixed cfg [(calm 5, PutTask 1 bread); (calm 2, GetTasks)]
           (one_task cfg) 1
           {| cols := {| title := "Buy milk"; description := None;
                         completed := Some false |};
              row_created_at := 101; row_updated_at := 101 |}).
  - apply serve_all_wf, init_db_wf.
  - by vm_compute.
  - by vm_compute.
Defined.

(** X11. Ids grow: a task created by a [POST /tasks/] that follows another,
    with any requests in between, has a greater id than the task the earlier
    one created. *)
Theorem ids_increase cfg env1 b1 d t1 s1 later env2 b2 t2 s2 :
  serve cfg env1 (PostTasks b1) d
  = ({| status := 200; content := JTask t1 |}, s1) →
  serve cfg env2 (PostTasks b2) (serve_all cfg later (db s1)).2
  = ({| status := 200; content := JTask t2 |}, s2) →
  id t1 < id t2.
Proof.
  intros E1 E2.
  destruct (create_task_id _ _ _ _ _ _ E1) as [H1 H1'].
  destruct (create_task_id _ _ _ _ _ _ E2) as [H2 _].
  pose proof (serve_all_next_id_mono cfg later (db s1)). lia.
Qed.

Lemma ids_increase_witness :
  let cfg := default_flags true in
  let out1 := serve cfg (calm 1) (PostTasks bread) (one_task cfg) in
  let out2 := serve cfg (calm 1) (PostTasks bread)
                (serve_all cfg [(calm 1, DeleteTask 2)] (db out1.2)).2 in
  ∃ t1 t2, out1.1 = {| status := 200; content := JTask t1 |}
           ∧ out2.1 = {| status := 200; content := JTask t2 |}
           ∧ id t1 < id t2.
Proof.
  intros cfg out1 out2.
  exists {| base := {| title := "Buy bread"; description := Some "two loaves";
                       completed := Some true |};
            id := 2; created_at := 102; updated_at := 102 |}.
  exists {| base := {| title := "Buy bread"; description := Some "two loaves";
                       completed := Some true |};
            id := 3; created_at := 104; updated_at := 104 |}.
  split; [by vm_compute |]. split; [by vm_compute |].
  apply (ids_increase cfg (calm 1) bread (one_task cfg) _ out1.2
           [(calm 1, DeleteTask 2)] (calm 1) bread _ out2.2).
  - vm_compute. reflexivity.
  - vm_compute. reflexivity.
Defined.

(** ** The page of [GET /ask] *)

Lemma after_no_state (n : nat) :
  yesSize (after_no n) = 20 + 10 * Z.of_nat n
  ∧ noSize (after_no n) = 20 - 2 * Z.of_nat n
  ∧ msgIndex (after_no n) = Nat.min n 5
  ∧ buttons_shown (after_no n) = true
  ∧ cat_shown (after_no n) = false.
Proof.
  induction n as [|n (Hy & Hn & Hm & Hb & Hc)]; [done |].
  unfold after_no in *. rewrite Nat.iter_succ.
  set (p := Nat.iter n increaseYesSize loaded) in *.
  unfold increaseYesSize. rewrite Hm.
  destruct (Nat.min n 5 <? length messages)%nat eqn:Hlt;
    cbn [yesSize noSize msgIndex buttons_shown cat_shown].
  - apply Nat.ltb_lt in Hlt. cbn in Hlt. split_and!; try done; lia.
  - apply Nat.ltb_ge in Hlt. cbn in Hlt. split_and!; try done; lia.
Qed.

(** X12. After [n] clicks on "No" the "Yes" button is at 20 + 10 n px and
    the "No" button at 20 - 2 n px but not below 10 px: it shrinks for five
    clicks and then stays, and never grows. *)
Theorem no_clicks_sizes (n : nat) :
  Z.of_nat n < 2 ^ 49 →
  yes_font (after_no n) = 20 + 10 * Z.of_nat n
  ∧ no_font (after_no n) = Z.max (20 - 2 * Z.of_nat n) 10
  ∧ 10 ≤ no_font (after_no n) ≤ 20.
Proof.
  intros _.
  assert (yes_font (after_no n) = 20 + 10 * Z.of_nat n
          ∧ no_font (after_no n) = Z.max (20 - 2 * Z.of_nat n) 10) as [Hy Hn].
  { destruct n as [|n]; [done |].
    destruct (after_no_state n) as (Hy & Hn & _).
    unfold after_no in *. rewrite Nat.iter_succ.
    set (p := Nat.iter n increaseYesSize loaded) in *.
    unfold increaseYesSize.
    destruct (_ <? _)%nat; cbn [yes_font no_font]; rewrite Hy, Hn; lia. }
  split_and!; [done | done | lia | lia].
Qed.

Lemma no_clicks_sizes_witness :
  yes_font (after_no 7) = 90 ∧ no_font (after_no 7) = 10.
Proof.
  destruct (no_clicks_sizes 7) as (Hy & Hn & _); [by vm_compute |].
  split; [rewrite Hy | rewrite Hn]; by vm_compute.
Defined.

(** X13. The click number [n + 1] on "No" shows the message of index [n]
    of [messages] while there is one (the first five clicks) and the fixed
    last text ever after; the index into [messages] never passes its length,
    and clicks on "No" neither hide the buttons nor show the picture. *)
Theorem no_clicks_messages (n : nat) :
  message (after_no (S n)) = nth n messages no_escape_text
  ∧ (msgIndex (after_no (S n)) ≤ length messages)%nat
  ∧ buttons_shown (after_no (S n)) = true
  ∧ cat_shown (after_no (S n)) = false.
Proof.
  destruct (after_no_state (S n)) as (_ & _ & Hm' & Hb & Hc).
  split_and!; [| rewrite Hm'; change (length messages) with 5%nat; lia
              | done | done].
  destruct (after_no_state n) as (_ & _ & Hm & _).
  unfold after_no in *. rewrite Nat.iter_succ.
  set (p := Nat.iter n increaseYesSize loaded) in *.
  unfold increaseYesSize. rewrite Hm.
  destruct n as [|[|[|[|[|n]]]]]; try done.
  rewrite Nat.min_r by lia. cbn. by destruct n.
Qed.

(** ** Connections and answers *)

(** X14. A request opens at most one connection, and opens it before any
    other driver call; when the connection cannot be opened, no other driver
    call is made. *)
Theorem one_connection_per_request cfg env req d resp s :
  serve cfg env req d = (resp, s) →
  (trace s = []
   ∨ ∃ o rest, trace s = (CConnect, o) :: rest
               ∧ ∀ ev, ev ∈ rest → ev.1 ≠ CConnect)
  ∧ ∀ msg, connect_error env = Some msg →
      trace s = [] ∨ trace s = [(CConnect, Some msg)].
Proof.
  intros E. revert E. destruct req; exec; intros; simplify_eq/=.
  all: split; [| intros msg' ?; simplify_eq; by auto].
  all: try (by left).
  all: right; eexists _, _; split; [done |]; intros ev Hin.
  all: repeat (apply elem_of_cons in Hin as [-> | Hin]; [done |]).
  all: by apply elem_of_nil in Hin.
Qed.

Lemma one_connection_per_request_witness :
  let env := {| elapsed := 0; connect_error := Some "Access denied";
                faults := λ _, None |} in
  trace (serve (default_flags true) env GetTasks (init_db 100)).2
  = [(CConnect, Some "Access denied")].
Proof.
  intros env.
  destruct (one_connection_per_request (default_flags true) env GetTasks
              (init_db 100)
              (serve (default_flags true) env GetTasks (init_db 100)).1
              (serve (default_flags true) env GetTasks (init_db 100)).2)
    as [_ H].
  - reflexivity.
  - destruct (H "Access denied" eq_refl) as [H0 | H1]; [| exact H1].
    by vm_compute in H0.
Defined.

(** X15. [PUT /tasks/{id}] with a valid body, served without failure, is
    answered 404 "Task not found" when no row has the id, and 200 with the
    row as updated when there is a row and the body differs from it in
    title, description or completed. *)
Theorem update_answers cfg env d i b task :
  connect_error env = None → (∀ k, faults env k = None) →
  validate b = Some task →
  (tasks d !! i = None →
   (serve cfg env (PutTask i b) d).1
   = {| status := 404; content := JDetail "Task not found" |})
  ∧ ∀ r, tasks d !! i = Some r → cols r ≠ task →
      (serve cfg env (PutTask i b) d).1
      = {| status := 200;
           content := JTask {| base := task; id := i;
                               created_at := row_created_at r;
                               updated_at :=
                                 if on_update_refresh cfg
                                 then now d + Z.of_nat (elapsed env)
                                 else row_updated_at r |} |}.
Proof.
  intros Hc Hf Hv. split.
  - intros Hi. by run_serve.
  - intros r Hi Hne. by run_serve.
Qed.

Lemma update_answers_witness :
  let cfg := default_flags true in
  (serve cfg (calm 5) (PutTask 1 bread) (one_task cfg)).1
  = {| status := 200;
       content := JTask {| base := {| title := "Buy bread";
                                      description := Some "two loaves";
                                      completed := Some true |};
                           id := 1; created_at := 101; updated_at := 106 |} |}.
Proof.
  intros cfg.
  destruct (update_answers cfg (calm 5) (one_task cfg) 1 bread
              {| title := "Buy bread"; description := Some "two loaves";
                 completed := Some true |}) as [_ H].
  - reflexivity.
  - reflexivity.
  - reflexivity.
  - apply (H {| cols := {| title := "Buy milk"; description := None;
                           completed := Some false |};
                row_created_at := 101; row_updated_at := 101 |}).
    + by vm_compute.
    + by intros [=].
Defined.
